(** * Behavioural bot classifier: a shallow embedding of [botDetection.js]

    The JavaScript class [BotDetector] keeps five sample buffers, a running
    confidence score and a map of privileged-endpoint hits.  This file
    embeds the class method by method and states the properties of the
    classifier over that embedding.

    Conventions of the embedding.
    - A JavaScript [number] is an IEEE-754 binary64 value; it is modelled by
      Rocq's primitive [float], so NaN, infinities, signed zeros and
      rounding are those of the program.
    - [performance.now()] and the other values the host supplies are
      arguments of the method that reads them.
    - [document.elementFromPoint] followed by [getBoundingClientRect] is an
      oracle [DOM]; a DOM call may raise, which is the [Throw] outcome.
    - Array lengths and call counters are natural numbers (they stay far
      below 2^53, where the two representations agree). *)

From Stdlib Require Import Floats ZArith NArith List String Ascii Bool Lia.
From stdpp Require Import gmap strings.

Set Warnings "-inexact-float".
Local Open Scope float_scope.

(** ** JavaScript numbers and [Math] *)

Module JS.

Definition isNaN (x : float) : bool := PrimFloat.is_nan x.

(** [Math.min]: NaN if either argument is NaN; [-0] is below [+0]. *)
Definition min (a b : float) : float :=
  if PrimFloat.is_nan a || PrimFloat.is_nan b then nan
  else if a <? b then a
  else if b <? a then b
  else if PrimFloat.get_sign a then a else b.

(** [Math.max]: NaN if either argument is NaN; [+0] is above [-0]. *)
Definition max (a b : float) : float :=
  if PrimFloat.is_nan a || PrimFloat.is_nan b then nan
  else if a <? b then b
  else if b <? a then a
  else if PrimFloat.get_sign a then b else a.

Definition abs (x : float) : float := PrimFloat.abs x.
Definition sqrt (x : float) : float := PrimFloat.sqrt x.

(** [Math.pow(x, 2)], the only use of [Math.pow] in the class. *)
Definition pow2 (x : float) : float := x * x.

(** The number value of an array length or of a counter. *)
Definition ofNat (n : nat) : float :=
  PrimFloat.of_uint63 (Uint63.of_Z (Z.of_nat n)).

Definition ofN (n : N) : float :=
  PrimFloat.of_uint63 (Uint63.of_Z (Z.of_N n)).

(** [a >= b] and [a > b] on numbers (false when either side is NaN). *)
Definition geb (a b : float) : bool := b <=? a.
Definition gtb (a b : float) : bool := b <? a.

(** [array.reduce((sum, val) => sum + val, 0)]. *)
Definition sum (l : list float) : float :=
  fold_left (fun acc v => acc + v) l 0.

(** Differences of consecutive elements:
    [for (i = 1; i < a.length; i++) out.push(a[i] - a[i-1])]. *)
Fixpoint intervals (ts : list float) : list float :=
  match ts with
  | [] => []
  | t0 :: rest =>
      match rest with
      | [] => []
      | t1 :: _ => (t1 - t0) :: intervals rest
      end
  end.

(** [s.toLowerCase()] on the ASCII letters; other code units are kept. *)
Definition lowerAscii (c : ascii) : ascii :=
  let n := nat_of_ascii c in
  if Nat.leb 65 n && Nat.leb n 90 then ascii_of_nat (n + 32) else c.

Fixpoint toLowerCase (s : string) : string :=
  match s with
  | EmptyString => EmptyString
  | String c r => String (lowerAscii c) (toLowerCase r)
  end.

(** [s.startsWith(p)] and [s.includes(p)]. *)
Definition startsWith (s p : string) : bool := String.prefix p s.

Fixpoint includes (s p : string) : bool :=
  String.prefix p s ||
  match s with
  | EmptyString => false
  | String _ r => includes r p
  end.

(** [s.split('?')[0]]: the part of [s] before its first question mark. *)
Fixpoint beforeQuery (s : string) : string :=
  match s with
  | EmptyString => EmptyString
  | String c r =>
      if Ascii.eqb c "?" then EmptyString else String c (beforeQuery r)
  end.

End JS.

(** ** Outcomes of calls that may raise *)

Inductive Outcome (A : Type) : Type :=
| Return (a : A)
| Throw (reason : string).
Arguments Return {A} a.
Arguments Throw {A} reason.

#[global] Instance Outcome_ret : MRet Outcome := fun _ a => Return a.
#[global] Instance Outcome_bind : MBind Outcome := fun _ _ k m =>
  match m with
  | Return a => k a
  | Throw e => Throw e
  end.

(** ** Configuration constants ([CONFIG]) *)

Module CONFIG.
Definition MOUSE_THROTTLE_MS : float := 50.
Definition KEYBOARD_THROTTLE_MS : float := 25.
Definition MAX_SAMPLES : nat := 200.
Definition ANALYSIS_INTERVAL_MS : float := 500.
Definition MIN_MOUSE_MOVEMENTS : nat := 2.
Definition MIN_KEYPRESS_SAMPLES : nat := 1.
Definition MOUSE_ENTROPY : float := 0.45.
Definition TYPING_PATTERN : float := 0.15.
Definition NAVIGATION_PATTERN : float := 0.25.
Definition FORM_FILLING : float := 0.15.
Definition BOT_THRESHOLD : float := 0.55.
Definition HUMAN_THRESHOLD : float := 0.3.
(** [CONFIG.MAX_SAMPLES / 4], the bound of the click, scroll and form
    buffers; the quotient is exact. *)
Definition QUARTER_SAMPLES : nat := Nat.div MAX_SAMPLES 4.
End CONFIG.

(** ** Samples, events and the host environment *)

Record MouseSample := { m_x : float; m_y : float; m_time : float }.

Record Modifiers := { shift : bool; ctrl : bool; alt : bool; meta : bool }.
Record KeySample := { k_time : float; k_modifiers : Modifiers }.

Record ClickSample :=
  { c_x : float; c_y : float; c_target : string; c_time : float }.

Record ScrollSample := { s_scrollY : float; s_time : float }.

Record FormSample := { f_field : string; f_time : float }.

(** [getBoundingClientRect()] of an element. *)
Record DOMRect :=
  { r_left : float; r_top : float; r_width : float; r_height : float }.

(** [document.elementFromPoint(x, y)]: it raises, or finds no element, or
    finds one, known here by its bounding rectangle. *)
Definition DOM : Type := float -> float -> Outcome (option DOMRect).

Record MouseEvent := { clientX : float; clientY : float }.

Record KeyboardEvent :=
  { shiftKey : bool; ctrlKey : bool; altKey : bool; metaKey : bool }.

(** A click: [targetRect] is [Some r] when [event.target instanceof
    HTMLElement], with [r] its bounding rectangle. *)
Record ClickEvent :=
  { click_clientX : float; click_clientY : float;
    click_tagName : string; targetRect : option DOMRect }.

Record InputEvent :=
  { input_tagName : string; input_name : string; input_id : string }.

(** What [checkForAutomation] reads from [window]. *)
Record WindowProbe :=
  { CDP : bool; playwright : bool; puppeteer : bool;
    pwEvents : bool; pw_inspector : bool;
    outerHeight : float; innerHeight : float;
    outerWidth : float; innerWidth : float }.

(** First argument of [window.fetch]: a string, or a [Request]/[URL] object. *)
Inductive FetchInput :=
| UrlString (url : string)
| RequestObject.

(** Body of the POST to the reporting endpoint. *)
Record Report :=
  { rep_confidenceScore : float;
    rep_mouseEntropy : float;
    rep_typingPattern : float;
    rep_navigationPattern : float;
    rep_formFilling : float;
    rep_mouseMovements : nat;
    rep_keyPresses : nat;
    rep_clicks : nat;
    rep_scrolls : nat;
    rep_formInteractions : nat }.

(** ** The detector object *)

Record BotDetector := mkBotDetector
  { mouseMovements : list MouseSample;
    keyPressTimings : list KeySample;
    clickEvents : list ClickSample;
    scrollEvents : list ScrollSample;
    formInteractions : list FormSample;
    lastMouseTime : float;
    lastKeyTime : float;
    confidenceScore : float;
    isAnalyzing : bool;
    analysisTimerId : option nat;
    botEndpointHits : gmap string N }.

Definition reportEndpoint : string := "/bot/behaviorMetrics".

(** State after the field initialisers of the constructor. *)
Definition newBotDetector : BotDetector :=
  {| mouseMovements := []; keyPressTimings := []; clickEvents := [];
     scrollEvents := []; formInteractions := [];
     lastMouseTime := 0; lastKeyTime := 0;
     confidenceScore := 0.5; isAnalyzing := false;
     analysisTimerId := None; botEndpointHits := ∅ |}.

(** Field assignments. *)
Definition set_mouseMovements (v : list MouseSample) (d : BotDetector) :=
  mkBotDetector v (keyPressTimings d) (clickEvents d) (scrollEvents d)
    (formInteractions d) (lastMouseTime d) (lastKeyTime d)
    (confidenceScore d) (isAnalyzing d) (analysisTimerId d)
    (botEndpointHits d).
Definition set_keyPressTimings (v : list KeySample) (d : BotDetector) :=
  mkBotDetector (mouseMovements d) v (clickEvents d) (scrollEvents d)
    (formInteractions d) (lastMouseTime d) (lastKeyTime d)
    (confidenceScore d) (isAnalyzing d) (analysisTimerId d)
    (botEndpointHits d).
Definition set_clickEvents (v : list ClickSample) (d : BotDetector) :=
  mkBotDetector (mouseMovements d) (keyPressTimings d) v (scrollEvents d)
    (formInteractions d) (lastMouseTime d) (lastKeyTime d)
    (confidenceScore d) (isAnalyzing d) (analysisTimerId d)
    (botEndpointHits d).
Definition set_scrollEvents (v : list ScrollSample) (d : BotDetector) :=
  mkBotDetector (mouseMovements d) (keyPressTimings d) (clickEvents d) v
    (formInteractions d) (lastMouseTime d) (lastKeyTime d)
    (confidenceScore d) (isAnalyzing d) (analysisTimerId d)
    (botEndpointHits d).
Definition set_formInteractions (v : list FormSample) (d : BotDetector) :=
  mkBotDetector (mouseMovements d) (keyPressTimings d) (clickEvents d)
    (scrollEvents d) v (lastMouseTime d) (lastKeyTime d)
    (confidenceScore d) (isAnalyzing d) (analysisTimerId d)
    (botEndpointHits d).
Definition set_lastMouseTime (v : float) (d : BotDetector) :=
  mkBotDetector (mouseMovements d) (keyPressTimings d) (clickEvents d)
    (scrollEvents d) (formInteractions d) v (lastKeyTime d)
    (confidenceScore d) (isAnalyzing d) (analysisTimerId d)
    (botEndpointHits d).
Definition set_lastKeyTime (v : float) (d : BotDetector) :=
  mkBotDetector (mouseMovements d) (keyPressTimings d) (clickEvents d)
    (scrollEvents d) (formInteractions d) (lastMouseTime d) v
    (confidenceScore d) (isAnalyzing d) (analysisTimerId d)
    (botEndpointHits d).
Definition set_confidenceScore (v : float) (d : BotDetector) :=
  mkBotDetector (mouseMovements d) (keyPressTimings d) (clickEvents d)
    (scrollEvents d) (formInteractions d) (lastMouseTime d) (lastKeyTime d)
    v (isAnalyzing d) (analysisTimerId d) (botEndpointHits d).
Definition set_isAnalyzing (v : bool) (d : BotDetector) :=
  mkBotDetector (mouseMovements d) (keyPressTimings d) (clickEvents d)
    (scrollEvents d) (formInteractions d) (lastMouseTime d) (lastKeyTime d)
    (confidenceScore d) v (analysisTimerId d) (botEndpointHits d).
Definition set_analysisTimerId (v : option nat) (d : BotDetector) :=
  mkBotDetector (mouseMovements d) (keyPressTimings d) (clickEvents d)
    (scrollEvents d) (formInteractions d) (lastMouseTime d) (lastKeyTime d)
    (confidenceScore d) (isAnalyzing d) v (botEndpointHits d).
Definition set_botEndpointHits (v : gmap string N) (d : BotDetector) :=
  mkBotDetector (mouseMovements d) (keyPressTimings d) (clickEvents d)
    (scrollEvents d) (formInteractions d) (lastMouseTime d) (lastKeyTime d)
    (confidenceScore d) (isAnalyzing d) (analysisTimerId d) v.

(** ** Sample store *)

(** The append-then-trim idiom shared by the five handlers:
    [buf.push(x); if (buf.length > cap) buf.shift();]. *)
Definition pushTrim {A : Type} (cap : nat) (x : A) (buf : list A) : list A :=
  let pushed := buf ++ [x] in
  if Nat.ltb cap (length pushed) then tail pushed else pushed.

(** [score += delta; score = Math.min(0.95, score)]. *)
Definition bump (delta : float) (d : BotDetector) : BotDetector :=
  set_confidenceScore (JS.min 0.95 (confidenceScore d + delta)) d.

(** ** Signal extractors *)

(** Loop variables of [calculateMouseEntropy]. *)
Record EntropyLoop :=
  { straightLineSegments : float;
    lastSpeed : option float;
    speedVariations : float }.

(** One iteration of the loop, on the triple [p1, p2, p3]. *)
Definition entropyStep (p1 p2 p3 : MouseSample) (st : EntropyLoop) : EntropyLoop :=
  let dxA := m_x p2 - m_x p1 in
  let dyA := m_y p2 - m_y p1 in
  let dxB := m_x p3 - m_x p2 in
  let dyB := m_y p3 - m_y p2 in
  let crossProduct := JS.abs (dxA * dyB - dyA * dxB) in
  let straight :=
    if crossProduct <? 10 then straightLineSegments st + 1
    else straightLineSegments st in
  let distance := JS.sqrt (dxB * dxB + dyB * dyB) in
  let timeDiff := m_time p3 - m_time p2 in
  let speed := if JS.gtb timeDiff 0 then distance / timeDiff else 0 in
  let variations :=
    match lastSpeed st with
    | Some previous => speedVariations st + JS.abs (speed - previous)
    | None => speedVariations st
    end in
  {| straightLineSegments := straight;
     lastSpeed := Some speed;
     speedVariations := variations |}.

(** [for (let i = 2; i < length; i++)] over the consecutive triples. *)
Fixpoint entropyLoop (pts : list MouseSample) (st : EntropyLoop) : EntropyLoop :=
  match pts with
  | [] => st
  | p1 :: rest =>
      match rest with
      | p2 :: p3 :: _ => entropyLoop rest (entropyStep p1 p2 p3 st)
      | _ => st
      end
  end.

Definition calculateMouseEntropy (d : BotDetector) : float :=
  let n := length (mouseMovements d) in
  if Nat.ltb n CONFIG.MIN_MOUSE_MOVEMENTS then 0.5
  else
    let st := entropyLoop (mouseMovements d)
                {| straightLineSegments := 0; lastSpeed := None;
                   speedVariations := 0 |} in
    let straightnessRatio :=
      if Nat.ltb 3 n then straightLineSegments st / (JS.ofNat n - 2) else 0 in
    let speedVariabilityScore := speedVariations st / (JS.ofNat n - 2) in
    straightnessRatio * 0.6
    + (1 - JS.min 1 (speedVariabilityScore * 10)) * 0.4.

Definition calculateTypingPatterns (d : BotDetector) : float :=
  if Nat.ltb (length (keyPressTimings d)) CONFIG.MIN_KEYPRESS_SAMPLES then 0.5
  else
    let intervals := JS.intervals (map k_time (keyPressTimings d)) in
    let sum := fold_left (fun acc i => acc + i) intervals 0 in
    let squaredSum := fold_left (fun acc i => acc + i * i) intervals 0 in
    let mean := sum / JS.ofNat (length intervals) in
    let variance := squaredSum / JS.ofNat (length intervals) - mean * mean in
    let normalizedVariance := JS.min 1 (variance / 10000) in
    1 - normalizedVariance.

(** First navigation sub-signal: regularity of the scroll intervals. *)
Definition scrollRegularity (scrolls : list ScrollSample) : float :=
  let scrollIntervals := JS.intervals (map s_time scrolls) in
  let avg := JS.sum scrollIntervals / JS.ofNat (length scrollIntervals) in
  let variance :=
    fold_left (fun acc v => acc + JS.pow2 (v - avg)) scrollIntervals 0
    / JS.ofNat (length scrollIntervals) in
  let stdDev := JS.sqrt variance in
  JS.max 0 (JS.min 1 (1 - stdDev / 1000)).

(** Distance of a point to the centre of a rectangle. *)
Definition distanceToCenter (x y : float) (rect : DOMRect) : float :=
  let centerX := r_left rect + r_width rect / 2 in
  let centerY := r_top rect + r_height rect / 2 in
  JS.sqrt (JS.pow2 (x - centerX) + JS.pow2 (y - centerY)).

(** [for (const click of this.clickEvents)], counting the clicks within
    5 pixels of the centre of the element found at their position. *)
Fixpoint countCenterClicks (dom : DOM) (clicks : list ClickSample)
    (centerClicks : float) : Outcome float :=
  match clicks with
  | [] => Return centerClicks
  | click :: rest =>
      match dom (c_x click) (c_y click) with
      | Throw e => Throw e
      | Return None => countCenterClicks dom rest centerClicks
      | Return (Some rect) =>
          if distanceToCenter (c_x click) (c_y click) rect <? 5
          then countCenterClicks dom rest (centerClicks + 1)
          else countCenterClicks dom rest centerClicks
      end
  end.

(** Second navigation sub-signal: fraction of centre clicks. *)
Definition centerClickRatio (dom : DOM) (clicks : list ClickSample)
    : Outcome float :=
  centerClicks ← countCenterClicks dom clicks 0;
  mret (centerClicks / JS.ofNat (length clicks)).

Definition calculateNavigationPatterns (d : BotDetector) (dom : DOM)
    : Outcome float :=
  if Nat.ltb (length (clickEvents d)) 2 && Nat.ltb (length (scrollEvents d)) 2
  then mret 0.5
  else
    let score := 0.5 in
    let score :=
      if Nat.leb 3 (length (scrollEvents d))
      then (score + scrollRegularity (scrollEvents d)) / 2
      else score in
    if Nat.leb 2 (length (clickEvents d))
    then ratio ← centerClickRatio dom (clickEvents d);
         mret ((score + ratio) / 2)
    else mret score.

Definition calculateFormFillingPatterns (d : BotDetector) : float :=
  if Nat.ltb (length (formInteractions d)) 2 then 0.5
  else
    let intervals := JS.intervals (map f_time (formInteractions d)) in
    let avgInterval := JS.sum intervals / JS.ofNat (length intervals) in
    if avgInterval <? 250 then 0.95
    else if avgInterval <? 500 then 0.8
    else if avgInterval <? 800 then 0.6
    else if avgInterval <? 1500 then 0.4
    else 0.2.

(** ** Score accessors and the tier *)

Definition getConfidenceScore (d : BotDetector) : float :=
  if JS.isNaN (confidenceScore d) then 0.5 else confidenceScore d.

Definition isLikelyBot (d : BotDetector) : bool :=
  JS.gtb (confidenceScore d) CONFIG.BOT_THRESHOLD.

Inductive Level := L0 | L1 | L2.

(** [Object.values(this.botEndpointHits).reduce((a, b) => a + b, 0)]. *)
Definition endpointCount (d : BotDetector) : N :=
  map_fold (fun _ v acc => (acc + v)%N) 0%N (botEndpointHits d).

(** The weighted combination of [getIntelligenceLevel]. *)
Definition combinedScore (confidence navScore : float) (calls : N) : float :=
  let endpointScore := JS.min 1 (JS.ofN calls / 3) in
  confidence * 0.5 + navScore * 0.3 + endpointScore * 0.2.

(** The three [return]s of [getIntelligenceLevel]. *)
Definition levelOf (combined : float) : Level :=
  if JS.geb combined 0.7 then L2
  else if JS.geb combined 0.4 then L1
  else L0.

Definition getIntelligenceLevel (d : BotDetector) (dom : DOM) : Outcome Level :=
  navScore ← calculateNavigationPatterns d dom;
  mret (levelOf (combinedScore (getConfidenceScore d) navScore (endpointCount d))).

(** ** Endpoint-usage hook and reporter *)

(** The wrapper installed by [hookIntoFetch], before it forwards the call.
    Every key it writes starts with the prefix, so no inherited property of
    the object is ever read. *)
Definition hookedFetch (d : BotDetector) (input : FetchInput) : BotDetector :=
  match input with
  | UrlString url =>
      if JS.startsWith url "/bot/" && negb (JS.includes url "behaviorMetrics")
      then
        let endpoint := JS.beforeQuery url in
        let hits := botEndpointHits d in
        set_botEndpointHits
          (<[endpoint := (default 0 (hits !! endpoint) + 1)%N]> hits) d
      else d
  | RequestObject => d
  end.

(** The snapshot built by [reportToServer]. *)
Definition snapshot (d : BotDetector) (navigationPattern : float) : Report :=
  {| rep_confidenceScore := confidenceScore d;
     rep_mouseEntropy := calculateMouseEntropy d;
     rep_typingPattern := calculateTypingPatterns d;
     rep_navigationPattern := navigationPattern;
     rep_formFilling := calculateFormFillingPatterns d;
     rep_mouseMovements := length (mouseMovements d);
     rep_keyPresses := length (keyPressTimings d);
     rep_clicks := length (clickEvents d);
     rep_scrolls := length (scrollEvents d);
     rep_formInteractions := length (formInteractions d) |}.

(** [reportToServer], up to its first [await]: the snapshot is built and
    handed to [fetch] (the hooked one) at once; an exception while building
    it is caught by the method and nothing is sent.  The result is the
    detector after the call and the POSTs issued. *)
Definition reportToServer (d : BotDetector) (dom : DOM)
    : BotDetector * list Report :=
  match calculateNavigationPatterns d dom with
  | Return nav => (hookedFetch d (UrlString reportEndpoint), [snapshot d nav])
  | Throw _ => (d, [])
  end.

(** ** Event handlers *)

Definition isTooPerfectLine (points : list MouseSample) : bool :=
  match points with
  | p1 :: p2 :: p3 :: _ =>
      let crossProduct :=
        JS.abs ((m_y p2 - m_y p1) * (m_x p3 - m_x p2)
                - (m_x p2 - m_x p1) * (m_y p3 - m_y p2)) in
      let interval1 := m_time p2 - m_time p1 in
      let interval2 := m_time p3 - m_time p2 in
      let intervalDiff := JS.abs (interval1 - interval2) in
      (crossProduct <? 10) && (intervalDiff <? 10)
  | _ => false
  end.

(** [array.slice(-3)]. *)
Definition slice_last3 {A : Type} (l : list A) : list A :=
  skipn (length l - 3) l.

Definition handleMouseMove (d : BotDetector) (event : MouseEvent) (now : float)
    : BotDetector :=
  if JS.geb (now - lastMouseTime d) CONFIG.MOUSE_THROTTLE_MS then
    let d := set_lastMouseTime now d in
    let d :=
      set_mouseMovements
        (pushTrim CONFIG.MAX_SAMPLES
           {| m_x := clientX event; m_y := clientY event; m_time := now |}
           (mouseMovements d)) d in
    if Nat.leb 3 (length (mouseMovements d)) then
      if isTooPerfectLine (slice_last3 (mouseMovements d))
      then bump 0.1 d else d
    else d
  else d.

Definition detectMechanicalTyping (d : BotDetector) : BotDetector :=
  if Nat.ltb (length (keyPressTimings d)) 3 then d
  else
    let intervals := JS.intervals (firstn 5 (map k_time (keyPressTimings d))) in
    let avg := JS.sum intervals / JS.ofNat (length intervals) in
    let variance :=
      fold_left (fun acc v => acc + JS.pow2 (v - avg)) intervals 0
      / JS.ofNat (length intervals) in
    if variance <? 500 then bump 0.05 d else d.

Definition handleKeyDown (d : BotDetector) (event : KeyboardEvent) (now : float)
    : BotDetector :=
  if JS.geb (now - lastKeyTime d) CONFIG.KEYBOARD_THROTTLE_MS then
    let d := set_lastKeyTime now d in
    let d :=
      set_keyPressTimings
        (pushTrim CONFIG.MAX_SAMPLES
           {| k_time := now;
              k_modifiers := {| shift := shiftKey event; ctrl := ctrlKey event;
                                alt := altKey event; meta := metaKey event |} |}
           (keyPressTimings d)) d in
    if Nat.leb 3 (length (keyPressTimings d))
    then detectMechanicalTyping d else d
  else d.

Definition handleClick (d : BotDetector) (event : ClickEvent) (now : float)
    (dom : DOM) : BotDetector * list Report :=
  let d :=
    set_clickEvents
      (pushTrim CONFIG.QUARTER_SAMPLES
         {| c_x := click_clientX event; c_y := click_clientY event;
            c_target := click_tagName event; c_time := now |}
         (clickEvents d)) d in
  match targetRect event with
  | Some rect =>
      if (distanceToCenter (click_clientX event) (click_clientY event) rect <? 5)
         && JS.gtb (r_width rect) 10 && JS.gtb (r_height rect) 10
      then reportToServer (bump 0.15 d) dom
      else (d, [])
  | None => (d, [])
  end.

(** [calculateVariance]; the first [reduce] has no initial value. *)
Definition calculateVariance (array : list float) : float :=
  match array with
  | [] => 0
  | first :: others =>
      let mean :=
        fold_left (fun a b => a + b) others first / JS.ofNat (length array) in
      fold_left (fun sq n => sq + JS.pow2 (n - mean)) array 0
      / JS.ofNat (length array)
  end.

Definition detectMechanicalScrolling (d : BotDetector) : BotDetector :=
  if Nat.ltb (length (scrollEvents d)) 3 then d
  else
    let window := firstn 4 (scrollEvents d) in
    let intervals := JS.intervals (map s_time window) in
    let distances := map JS.abs (JS.intervals (map s_scrollY window)) in
    let timeVariance := calculateVariance intervals in
    let distanceVariance := calculateVariance distances in
    if (timeVariance <? 100) && (distanceVariance <? 100)
    then bump 0.1 d else d.

Definition handleScroll (d : BotDetector) (scrollY : float) (now : float)
    : BotDetector :=
  let d :=
    set_scrollEvents
      (pushTrim CONFIG.QUARTER_SAMPLES
         {| s_scrollY := scrollY; s_time := now |} (scrollEvents d)) d in
  if Nat.leb 3 (length (scrollEvents d))
  then detectMechanicalScrolling d else d.

(** [a || b] on strings: the first operand unless it is empty. *)
Definition orElse (a b : string) : string :=
  match a with EmptyString => b | _ => a end.

(** [time] of the last sample minus [time] of the one before it. *)
Definition timeBetweenFields (samples : list FormSample) : float :=
  match rev samples with
  | newest :: previous :: _ => f_time newest - f_time previous
  | _ => nan
  end.

Definition handleFormInteraction (d : BotDetector) (event : InputEvent)
    (now : float) (dom : DOM) : BotDetector * list Report :=
  if String.eqb (input_tagName event) "INPUT"
     || String.eqb (input_tagName event) "SELECT"
     || String.eqb (input_tagName event) "TEXTAREA"
  then
    let d :=
      set_formInteractions
        (pushTrim CONFIG.QUARTER_SAMPLES
           {| f_field := orElse (input_name event)
                           (orElse (input_id event) (input_tagName event));
              f_time := now |}
           (formInteractions d)) d in
    if Nat.leb 2 (length (formInteractions d)) then
      if timeBetweenFields (formInteractions d) <? 500
      then reportToServer (bump 0.2 d) dom
      else (d, [])
    else (d, [])
  else (d, []).

(** ** Fusion and smoothing *)

(** The weighted sum computed by [runAnalysis]. *)
Definition fuse (mouseEntropyScore typingPatternScore navigationScore
                 formFillingScore : float) : float :=
  mouseEntropyScore * CONFIG.MOUSE_ENTROPY
  + typingPatternScore * CONFIG.TYPING_PATTERN
  + navigationScore * CONFIG.NAVIGATION_PATTERN
  + formFillingScore * CONFIG.FORM_FILLING.

(** [isNaN(x) ? 0.5 : x]. *)
Definition orNeutral (x : float) : float := if JS.isNaN x then 0.5 else x.

(** The [try] block of [runAnalysis], entered with the flag already set. *)
Definition analysisTry (d : BotDetector) (dom : DOM)
    : Outcome (BotDetector * list Report) :=
  if Nat.ltb (length (mouseMovements d)) CONFIG.MIN_MOUSE_MOVEMENTS
  then mret (set_isAnalyzing false d, [])
  else
    let mouseEntropyScore := calculateMouseEntropy d in
    let typingPatternScore := calculateTypingPatterns d in
    navigationScore ← calculateNavigationPatterns d dom;
    let formFillingScore := calculateFormFillingPatterns d in
    let newScore :=
      fuse mouseEntropyScore typingPatternScore navigationScore
        formFillingScore in
    let validNewScore := orNeutral newScore in
    let d :=
      set_confidenceScore (confidenceScore d * 0.7 + validNewScore * 0.3) d in
    let d :=
      if JS.isNaN (confidenceScore d) then set_confidenceScore 0.5 d else d in
    mret (reportToServer d dom).

(** [runAnalysis]: re-entrancy guard, then [try] / [catch] / [finally]. *)
Definition runAnalysis (d : BotDetector) (dom : DOM)
    : BotDetector * list Report :=
  if isAnalyzing d then (d, [])
  else
    let d := set_isAnalyzing true d in
    let '(d, posted) :=
      match analysisTry d dom with
      | Return r => r
      | Throw _ => (set_confidenceScore 0.5 d, [])
      end in
    (set_isAnalyzing false d, posted).

(** [scheduleAnalysis]: the host returns the handle of the idle callback or
    of the timer. *)
Definition scheduleAnalysis (d : BotDetector) (handle : nat) : BotDetector :=
  set_analysisTimerId (Some handle) d.

(** ** Environment probes *)

(** The test of [checkBotHeaders] on [navigator.userAgent]. *)
Definition isBotUserAgent (navigatorUserAgent : string) : bool :=
  let userAgent := JS.toLowerCase navigatorUserAgent in
  JS.includes userAgent "bot"
  || JS.includes userAgent "crawler"
  || JS.includes userAgent "spider"
  || JS.includes userAgent "headless"
  || JS.includes userAgent "automation"
  || JS.includes userAgent "playwright"
  || JS.includes userAgent "selenium"
  || JS.includes userAgent "cypress".

(** The [then] callback of [checkBotHeaders], run when the HEAD request
    issued by the constructor resolves. *)
Definition onHeadResponse (d : BotDetector) (navigatorUserAgent : string)
    (dom : DOM) : BotDetector * list Report :=
  if isBotUserAgent navigatorUserAgent
  then reportToServer (set_confidenceScore 0.95 d) dom
  else (d, []).

(** The closure [checkForAutomation], run by the one-second timer. *)
Definition checkForAutomation (d : BotDetector) (w : WindowProbe) : BotDetector :=
  let cdp := CDP w || playwright w || puppeteer w in
  let pwMeta := pwEvents w || pw_inspector w in
  let d := if cdp || pwMeta then set_confidenceScore 0.95 d else d in
  if (outerHeight w =? innerHeight w) && (outerWidth w =? innerWidth w)
  then set_confidenceScore (confidenceScore d + 0.1) d
  else d.

(** The synchronous part of [detectAutomationLibraries]; the timer it arms
    fires later as [checkForAutomation]. *)
Definition detectAutomationLibraries (d : BotDetector) (webdriver : bool)
    : BotDetector :=
  if webdriver then set_confidenceScore 0.95 d else d.

(** ** Lifecycle *)

(** [start], on the detector: the analysis is scheduled and the probes run.
    The listeners it attaches belong to the page, see [step]. *)
Definition start (d : BotDetector) (handle : nat) (webdriver : bool)
    : BotDetector :=
  detectAutomationLibraries (scheduleAnalysis d handle) webdriver.

(** [stop], on the detector: the timer handle is dropped when it is truthy
    and the five buffers are emptied. *)
Definition stop (d : BotDetector) : BotDetector :=
  let d :=
    match analysisTimerId d with
    | Some (S _) => set_analysisTimerId None d
    | _ => d
    end in
  set_formInteractions []
    (set_scrollEvents []
       (set_clickEvents []
          (set_keyPressTimings []
             (set_mouseMovements [] d)))).

(** ** The page that hosts the detector *)

(** The detector, whether its listeners are attached to the document, and
    the reports posted so far. *)
Record Page :=
  { detector : BotDetector;
    listening : bool;
    outbox : list Report }.

(** What the host can do to the detector. *)
Inductive HostEvent :=
| MouseMoved (event : MouseEvent) (now : float)
| KeyPressed (event : KeyboardEvent) (now : float)
| Clicked (event : ClickEvent) (now : float)
| Scrolled (scrollY : float) (now : float)
| InputChanged (event : InputEvent) (now : float)
| AnalysisDue (handle : nat)
| AutomationCheckDue (w : WindowProbe)
| HeadResolved (navigatorUserAgent : string)
| Fetched (input : FetchInput)
| Started (handle : nat) (webdriver : bool)
| Stopped.

(** The page right after [new BotDetector()]. *)
Definition newPage : Page :=
  {| detector := newBotDetector; listening := false; outbox := [] |}.

Definition withDetector (p : Page) (d : BotDetector) : Page :=
  {| detector := d; listening := listening p; outbox := outbox p |}.

Definition withPosted (p : Page) (r : BotDetector * list Report) : Page :=
  {| detector := fst r; listening := listening p;
     outbox := outbox p ++ snd r |}.

(** One host event.  The five raw events reach their handler only while
    the listeners are attached.  [AnalysisDue] is the scheduled callback
    ([runAnalysis] then [scheduleAnalysis]); [Fetched] is a call of
    [window.fetch] by page code. *)
Definition step (dom : DOM) (p : Page) (ev : HostEvent) : Page :=
  let d := detector p in
  match ev with
  | MouseMoved event now =>
      if listening p then withDetector p (handleMouseMove d event now) else p
  | KeyPressed event now =>
      if listening p then withDetector p (handleKeyDown d event now) else p
  | Clicked event now =>
      if listening p then withPosted p (handleClick d event now dom) else p
  | Scrolled scrollY now =>
      if listening p then withDetector p (handleScroll d scrollY now) else p
  | InputChanged event now =>
      if listening p
      then withPosted p (handleFormInteraction d event now dom) else p
  | AnalysisDue handle =>
      let r := runAnalysis d dom in
      withPosted p (scheduleAnalysis (fst r) handle, snd r)
  | AutomationCheckDue w => withDetector p (checkForAutomation d w)
  | HeadResolved ua => withPosted p (onHeadResponse d ua dom)
  | Fetched input => withDetector p (hookedFetch d input)
  | Started handle webdriver =>
      {| detector := start d handle webdriver; listening := true;
         outbox := outbox p |}
  | Stopped =>
      {| detector := stop d; listening := false; outbox := outbox p |}
  end.

(** A sequence of host events, oldest first. *)
Definition run (dom : DOM) (evs : list HostEvent) (p : Page) : Page :=
  fold_left (step dom) evs p.

Local Close Scope float_scope.

(** * Vocabulary of the properties *)

(** The five buffers and the endpoint map of a detector. *)
Definition stores (d : BotDetector) :=
  (mouseMovements d, keyPressTimings d, clickEvents d, scrollEvents d,
   formInteractions d, botEndpointHits d).

(** How one host event may change a buffer of capacity [cap]. *)
Inductive BufferChange {A : Type} (cap : nat) (old new : list A) : Prop :=
| Kept : new = old -> BufferChange cap old new
| Appended x : length old < cap -> new = old ++ [x] -> BufferChange cap old new
| Evicted x : length old = cap -> new = tail old ++ [x] ->
    BufferChange cap old new
| Cleared : new = [] -> BufferChange cap old new.

(** All five buffers are within their configured capacity. *)
Definition withinCapacity (d : BotDetector) : Prop :=
  length (mouseMovements d) <= CONFIG.MAX_SAMPLES
  /\ length (keyPressTimings d) <= CONFIG.MAX_SAMPLES
  /\ length (clickEvents d) <= CONFIG.QUARTER_SAMPLES
  /\ length (scrollEvents d) <= CONFIG.QUARTER_SAMPLES
  /\ length (formInteractions d) <= CONFIG.QUARTER_SAMPLES.

(** One event changes each buffer by a [BufferChange] of its capacity. *)
Definition buffersChange (d d' : BotDetector) : Prop :=
  BufferChange CONFIG.MAX_SAMPLES (mouseMovements d) (mouseMovements d')
  /\ BufferChange CONFIG.MAX_SAMPLES (keyPressTimings d) (keyPressTimings d')
  /\ BufferChange CONFIG.QUARTER_SAMPLES (clickEvents d) (clickEvents d')
  /\ BufferChange CONFIG.QUARTER_SAMPLES (scrollEvents d) (scrollEvents d')
  /\ BufferChange CONFIG.QUARTER_SAMPLES (formInteractions d)
       (formInteractions d').



(** Host events that may follow [stop] in the amended claim: everything but
    a new [start] and a HEAD response with an automation-like identity. *)
Definition quiet (ev : HostEvent) : bool :=
  match ev with
  | Started _ _ => false
  | HeadResolved ua => negb (isBotUserAgent ua)
  | _ => true
  end.

(** Listeners detached and the five buffers empty. *)
Definition silenced (p : Page) : Prop :=
  listening p = false
  /\ mouseMovements (detector p) = []
  /\ keyPressTimings (detector p) = []
  /\ clickEvents (detector p) = []
  /\ scrollEvents (detector p) = []
  /\ formInteractions (detector p) = [].

(** The counter of [key]; a missing key counts as 0. *)
Definition hitCount (key : string) (d : BotDetector) : N :=
  default 0%N (botEndpointHits d !! key).

(** A call of [fetch] is counted under [key]: its first argument is a
    string that starts with the prefix and does not contain the word
    [behaviorMetrics], and [key] is that string up to its first question
    mark. *)
Definition counted (key : string) (input : FetchInput) : bool :=
  match input with
  | UrlString url =>
      JS.startsWith url "/bot/" && negb (JS.includes url "behaviorMetrics")
      && String.eqb (JS.beforeQuery url) key
  | RequestObject => false
  end.

Definition observes (key : string) (ev : HostEvent) : bool :=
  match ev with
  | Fetched input => counted key input
  | _ => false
  end.

(** Strict FIFO append to a buffer of capacity [cap]: the new sample goes
    to the end, and when the buffer is already full its oldest sample, the
    first one, is dropped. *)
Definition fifoPush {A : Type} (cap : nat) (x : A) (old : list A) : list A :=
  (if Nat.ltb (length old) cap then old else tail old) ++ [x].

(** * Closed inputs for the examples *)

(** A document with no element anywhere. *)
Definition quietDom : DOM := fun _ _ => Return None.

(** A document whose lookups raise. *)
Definition throwingDom : DOM := fun _ _ => Throw "TypeError".

Definition moveTo (x y : float) : MouseEvent := {| clientX := x; clientY := y |}.

Definition clickAt (x y : float) : ClickEvent :=
  {| click_clientX := x; click_clientY := y; click_tagName := "BODY";
     targetRect := None |}.

Definition plainKey : KeyboardEvent :=
  {| shiftKey := false; ctrlKey := false; altKey := false; metaKey := false |}.

(** Start, then three pointer samples 100 ms apart. *)
Definition threeMoves : list HostEvent :=
  [Started 1 false;
   MouseMoved (moveTo 0 0) 100;
   MouseMoved (moveTo 10 3) 200;
   MouseMoved (moveTo 25 4) 300]%float.

(** Start under a driver, two pointer samples and two clicks. *)
Definition drivenClicks : list HostEvent :=
  [Started 1 true;
   MouseMoved (moveTo 0 0) 100;
   MouseMoved (moveTo 10 3) 200;
   Clicked (clickAt 10 3) 250;
   Clicked (clickAt 40 8) 400]%float.

(** A headless window: no automation global, outer and inner sizes equal. *)
Definition headlessWindow : WindowProbe :=
  {| CDP := false; playwright := false; puppeteer := false;
     pwEvents := false; pw_inspector := false;
     outerHeight := 720; innerHeight := 720;
     outerWidth := 1280; innerWidth := 1280 |}%float.


(** Three scrolls 100 ms apart and two clicks on no element. *)
Definition scrollsAndClicks : list HostEvent :=
  [Started 1 false;
   Scrolled 0 100; Scrolled 120 200; Scrolled 400 300;
   Clicked (clickAt 10 3) 350; Clicked (clickAt 40 8) 500]%float.

(** Three scrolls 100 ms apart, no click. *)
Definition threeScrolls : list HostEvent :=
  [Started 1 false; Scrolled 0 100; Scrolled 120 200; Scrolled 400 300]%float.

(** Raw events of every class, a cycle, the delayed check, a HEAD response
    under an ordinary identity string and a fetch. *)
Definition afterStopTraffic : list HostEvent :=
  [MouseMoved (moveTo 5 5) 1000;
   MouseMoved (moveTo 6 6) 1100;
   KeyPressed plainKey 1200;
   Clicked (clickAt 6 6) 1300;
   Scrolled 40 1400;
   InputChanged {| input_tagName := "INPUT"; input_name := "origin";
                   input_id := "" |} 1500;
   AnalysisDue 2;
   AutomationCheckDue headlessWindow;
   HeadResolved "Mozilla/5.0 Chrome/120.0";
   Fetched (UrlString "/bot/graphql")]%float.

(** Start, then [n] pointer events 100 ms apart, the i-th at abscissa i. *)
Definition burst (n : nat) : list HostEvent :=
  Started 1 false
  :: map (fun i => MouseMoved (moveTo (JS.ofNat i) 0) (JS.ofNat (100 * i)))
       (seq 1 n).

(** Start, then a single key press. *)
Definition oneKey : list HostEvent :=
  [Started 1 false; KeyPressed plainKey 100%float].

(** * The application that reads the detector ([App.js]) *)

(** The [botInfo] state of the [App] component. *)
Record BotInfo :=
  { isBot : bool; score : float; adaptedView : bool; intelligence : Level }.

(** Its initial value, the argument of [useState]. *)
Definition initialBotInfo : BotInfo :=
  {| isBot := false; score := 0.5%float; adaptedView := false;
     intelligence := L0 |}.

(** [checkBotStatus]: the three reads of the detector, then the functional
    update of the state.  When [getIntelligenceLevel] raises, [setBotInfo]
    is not reached. *)
Definition checkBotStatus (prev : BotInfo) (d : BotDetector) (dom : DOM)
    : Outcome BotInfo :=
  let score := getConfidenceScore d in
  let isBot := isLikelyBot d in
  intelligence ← getIntelligenceLevel d dom;
  mret {| isBot := isBot; score := score;
          adaptedView := adaptedView prev || isBot;
          intelligence := intelligence |}.

(** The state after a check: the update when it was reached, else the
    state as it was. *)
Definition afterCheck (prev : BotInfo) (d : BotDetector) (dom : DOM) : BotInfo :=
  match checkBotStatus prev d dom with
  | Return info => info
  | Throw _ => prev
  end.

(** The [uri] of the link picked by
    [ApolloLink.split(() => botDetector.isLikelyBot(), botHttpLink, httpLink)]. *)
Definition graphqlUri (d : BotDetector) : string :=
  if isLikelyBot d then "/bot/graphql" else "/graphql".

(** * Vocabulary of the further properties *)

(** The five events delivered to the document listeners. *)
Definition rawEvent (ev : HostEvent) : bool :=
  match ev with
  | MouseMoved _ _ | KeyPressed _ _ | Clicked _ _ | Scrolled _ _
  | InputChanged _ _ => true
  | _ => false
  end.

(** Consecutive timestamps are at least [gap] apart, as the throttle
    computes the difference. *)
Definition spaced (gap : float) (times : list float) : Prop :=
  Forall (fun interval => JS.geb interval gap = true) (JS.intervals times).

(** The throttle clock is the time of the newest sample, if there is one. *)
Definition clockIsNewest (clock : float) (times : list float) : Prop :=
  times = [] \/ last times = Some clock.

(** The words [checkBotHeaders] looks for. *)
Definition botWords : list string :=
  ["bot"; "crawler"; "spider"; "headless"; "automation"; "playwright";
   "selenium"; "cypress"]%string.

(** A DOM whose lookups never raise. *)
Definition calm (dom : DOM) : Prop :=
  forall x y, exists found, dom x y = Return found.

(** The sample counts of a report are within the buffer capacities. *)
Definition reportWithinCapacity (r : Report) : Prop :=
  rep_mouseMovements r <= CONFIG.MAX_SAMPLES
  /\ rep_keyPresses r <= CONFIG.MAX_SAMPLES
  /\ rep_clicks r <= CONFIG.QUARTER_SAMPLES
  /\ rep_scrolls r <= CONFIG.QUARTER_SAMPLES
  /\ rep_formInteractions r <= CONFIG.QUARTER_SAMPLES.

(** A call of [fetch] is counted, under whatever key. *)
Definition countedCall (ev : HostEvent) : bool :=
  match ev with
  | Fetched (UrlString url) =>
      JS.startsWith url "/bot/" && negb (JS.includes url "behaviorMetrics")
  | _ => false
  end.

(** Twelve pointer events on one horizontal line, 100 ms apart. *)
Definition straightMoves : list HostEvent :=
  map (fun i => MouseMoved (moveTo (JS.ofNat (10 * i)) 0) (JS.ofNat (100 * i)))
    (seq 1 12).

(** Five key presses 100 ms apart. *)
Definition steadyKeys : list HostEvent :=
  Started 1 false
  :: map (fun i => KeyPressed plainKey (JS.ofNat (100 * i))) (seq 1 5).

(** The same five key presses, then three at uneven intervals. *)
Definition steadyThenErratic : list HostEvent :=
  steadyKeys
  ++ [KeyPressed plainKey 900; KeyPressed plainKey 2500;
      KeyPressed plainKey 2600]%float.

(** Every key of a usage map is a privileged path other than the reporting
    endpoint, cut at its query, and counted at least once. *)
Definition privilegedKeys (hits : gmap string N) : Prop :=
  forall key n, hits !! key = Some n ->
    JS.startsWith key "/bot/" = true
    /\ JS.includes key "behaviorMetrics" = false
    /\ JS.includes key "?" = false
    /\ (1 <= n)%N.

(** Page code calling [fetch], with a click that posts a report between. *)
Definition fetchTraffic : list HostEvent :=
  [Started 1 false;
   Fetched (UrlString "/bot/intent?step=1");
   Fetched (UrlString "/graphql");
   Fetched (UrlString "/bot/behaviorMetrics");
   Fetched RequestObject;
   Fetched (UrlString "/bot/intent?step=2");
   Fetched (UrlString "/bot/graphql")].

(** A report carries the score and the sample counts of a detector. *)
Definition reportMatches (r : Report) (d : BotDetector) : Prop :=
  rep_confidenceScore r = confidenceScore d
  /\ rep_mouseMovements r = length (mouseMovements d)
  /\ rep_keyPresses r = length (keyPressTimings d)
  /\ rep_clicks r = length (clickEvents d)
  /\ rep_scrolls r = length (scrollEvents d)
  /\ rep_formInteractions r = length (formInteractions d).

(** The [botInfo] state after a series of checks, each on the detector and
    the document of its time. *)
Definition afterChecks (info : BotInfo) (checks : list (BotDetector * DOM))
    : BotInfo :=
  fold_left (fun acc check => afterCheck acc (fst check) (snd check)) checks info.

(** An input event on a text field. *)
Definition typeInto (name : string) : InputEvent :=
  {| input_tagName := "INPUT"; input_name := name; input_id := "" |}.

(** Two fields filled 100 ms apart, then a click. *)
Definition quickForm : list HostEvent :=
  [Started 1 false;
   InputChanged (typeInto "origin") 1000;
   InputChanged (typeInto "destination") 1100;
   Clicked (clickAt 10 3) 1500]%float.

(** Two scrolls and one click. *)
Definition twoScrollsOneClick : list HostEvent :=
  [Started 1 false; Scrolled 0 100; Scrolled 300 450;
   Clicked (clickAt 10 3) 600]%float.

(** The events whose handling can post a report. *)
Definition mayPost (ev : HostEvent) : bool :=
  match ev with
  | Clicked _ _ | InputChanged _ _ | AnalysisDue _ | HeadResolved _ => true
  | _ => false
  end.

(** Every form sample names its field. *)
Definition fieldsNamed (samples : list FormSample) : Prop :=
  Forall (fun sample => f_field sample <> EmptyString) samples.

(** The throttle invariant of a detector. *)
Definition throttled (d : BotDetector) : Prop :=
  (spaced CONFIG.MOUSE_THROTTLE_MS (map m_time (mouseMovements d))
   /\ clockIsNewest (lastMouseTime d) (map m_time (mouseMovements d)))
  /\ (spaced CONFIG.KEYBOARD_THROTTLE_MS (map k_time (keyPressTimings d))
      /\ clockIsNewest (lastKeyTime d) (map k_time (keyPressTimings d))).

(** The five buffers are empty. *)
Definition silencedBuffers (d : BotDetector) : Prop :=
  mouseMovements d = [] /\ keyPressTimings d = [] /\ clickEvents d = []
  /\ scrollEvents d = [] /\ formInteractions d = [].

(** A named field, then a field with neither name nor id. *)
Definition anonymousForm : list HostEvent :=
  [Started 1 false;
   InputChanged (typeInto "origin") 1000;
   InputChanged {| input_tagName := "INPUT"; input_name := "";
                   input_id := "" |} 1100]%float.

(** * Properties *)

(** ** Frame lemmas: what each method leaves alone *)

Lemma stores_bump delta d : stores (bump delta d) = stores d.
Proof. reflexivity. Qed.

(** The reporting endpoint is not counted by the hook. *)
Lemma hookedFetch_reportEndpoint d :
  hookedFetch d (UrlString reportEndpoint) = d.
Proof. destruct d; reflexivity. Qed.

Lemma reportToServer_fst d dom : fst (reportToServer d dom) = d.
Proof.
  unfold reportToServer.
  destruct (calculateNavigationPatterns d dom); simpl;
    [apply hookedFetch_reportEndpoint | reflexivity].
Qed.

Lemma reportToServer_Return d dom nav :
  calculateNavigationPatterns d dom = Return nav ->
  reportToServer d dom = (d, [snapshot d nav]).
Proof.
  intros H. unfold reportToServer. rewrite H.
  now rewrite hookedFetch_reportEndpoint.
Qed.

(** The navigation signal reads only the click and scroll buffers. *)
Lemma calculateNavigationPatterns_ext d d' dom :
  clickEvents d = clickEvents d' -> scrollEvents d = scrollEvents d' ->
  calculateNavigationPatterns d dom = calculateNavigationPatterns d' dom.
Proof. intros Hc Hs. unfold calculateNavigationPatterns. now rewrite Hc, Hs. Qed.

Lemma analysisTry_stores d dom r :
  analysisTry d dom = Return r -> stores (fst r) = stores d.
Proof.
  unfold analysisTry. destruct (Nat.ltb _ _).
  - intros [= <-]. reflexivity.
  - destruct (calculateNavigationPatterns d dom) as [nav|e]; simpl; [|discriminate].
    intros [= <-]. rewrite reportToServer_fst.
    destruct (JS.isNaN _); reflexivity.
Qed.

Lemma runAnalysis_stores d dom : stores (fst (runAnalysis d dom)) = stores d.
Proof.
  unfold runAnalysis. destruct (isAnalyzing d); [reflexivity|].
  destruct (analysisTry _ dom) as [[d' posted]|e] eqn:E; simpl.
  - apply analysisTry_stores in E. exact E.
  - reflexivity.
Qed.

Lemma runAnalysis_isAnalyzing d dom :
  isAnalyzing d = false -> isAnalyzing (fst (runAnalysis d dom)) = false.
Proof.
  intros H. unfold runAnalysis. rewrite H.
  destruct (analysisTry _ dom) as [[d' posted]|e]; reflexivity.
Qed.

Lemma checkForAutomation_stores d w : stores (checkForAutomation d w) = stores d.
Proof. unfold checkForAutomation. repeat case_match; reflexivity. Qed.

Lemma onHeadResponse_stores d ua dom :
  stores (fst (onHeadResponse d ua dom)) = stores d.
Proof.
  unfold onHeadResponse. destruct (isBotUserAgent ua); [|reflexivity].
  now rewrite reportToServer_fst.
Qed.

Lemma start_stores d h wd : stores (start d h wd) = stores d.
Proof. unfold start, detectAutomationLibraries. destruct wd; reflexivity. Qed.

(** ** Sample store: append and trim *)

Lemma pushTrim_length {A} cap (x : A) buf :
  length buf <= cap -> length (pushTrim cap x buf) <= cap.
Proof.
  intros H. unfold pushTrim.
  destruct (Nat.ltb_spec cap (length (buf ++ [x]))) as [Hlt|Hge]; [|exact Hge].
  rewrite length_app in Hlt. simpl in Hlt.
  destruct buf as [|y ys]; simpl in *; [lia|].
  rewrite length_app. simpl. lia.
Qed.

Lemma pushTrim_room {A} cap (x : A) buf :
  length buf < cap -> pushTrim cap x buf = buf ++ [x].
Proof.
  intros H. unfold pushTrim.
  destruct (Nat.ltb_spec cap (length (buf ++ [x]))) as [Hlt|Hge]; [|reflexivity].
  rewrite length_app in Hlt. simpl in Hlt. lia.
Qed.

Lemma pushTrim_full {A} cap (x : A) buf :
  length buf = cap -> pushTrim cap x buf = tail (buf ++ [x]).
Proof.
  intros H. unfold pushTrim.
  destruct (Nat.ltb_spec cap (length (buf ++ [x]))) as [Hlt|Hge]; [reflexivity|].
  rewrite length_app in Hge. simpl in Hge. lia.
Qed.

Lemma pushTrim_change {A} cap (x : A) buf :
  0 < cap -> length buf <= cap -> BufferChange cap buf (pushTrim cap x buf).
Proof.
  intros Hcap Hlen.
  destruct (Nat.eq_dec (length buf) cap) as [Heq|Hne].
  - apply (Evicted _ _ _ x); [exact Heq|].
    rewrite pushTrim_full by exact Heq.
    destruct buf; simpl in *; [lia|reflexivity].
  - apply (Appended _ _ _ x); [lia|]. apply pushTrim_room. lia.
Qed.

Lemma quarter_positive : 0 < CONFIG.QUARTER_SAMPLES.
Proof. vm_compute. lia. Qed.

Lemma max_positive : 0 < CONFIG.MAX_SAMPLES.
Proof. vm_compute. lia. Qed.

Lemma BufferChange_length {A} cap (old new : list A) :
  0 < cap -> length old <= cap -> BufferChange cap old new ->
  length new <= cap.
Proof.
  intros Hcap Hlen [ -> | x Hlt -> | x Heq -> | -> ].
  - exact Hlen.
  - rewrite length_app. simpl. lia.
  - rewrite length_app. destruct old; simpl in *; lia.
  - simpl. lia.
Qed.

Lemma buffersChange_withinCapacity d d' :
  withinCapacity d -> buffersChange d d' -> withinCapacity d'.
Proof.
  intros (H1 & H2 & H3 & H4 & H5) (C1 & C2 & C3 & C4 & C5).
  repeat split;
    (eapply BufferChange_length;
     [first [apply max_positive | apply quarter_positive] | eassumption ..]).
Qed.

Lemma stores_buffersChange d d' : stores d' = stores d -> buffersChange d d'.
Proof.
  unfold stores. intros [= H1 H2 H3 H4 H5 _].
  repeat split; now apply Kept.
Qed.

Lemma handleMouseMove_change d event now :
  withinCapacity d -> buffersChange d (handleMouseMove d event now).
Proof.
  intros (H1 & _).
  assert (Hpush : forall x, buffersChange d
            (set_mouseMovements (pushTrim CONFIG.MAX_SAMPLES x (mouseMovements d))
               (set_lastMouseTime now d))).
  { intros x. repeat split; try (now apply Kept).
    apply pushTrim_change; [apply max_positive|exact H1]. }
  unfold handleMouseMove.
  destruct (JS.geb _ _); [|now apply stores_buffersChange].
  repeat case_match; apply Hpush.
Qed.

Lemma handleKeyDown_change d event now :
  withinCapacity d -> buffersChange d (handleKeyDown d event now).
Proof.
  intros (_ & H2 & _).
  assert (Hpush : forall x, buffersChange d
            (set_keyPressTimings (pushTrim CONFIG.MAX_SAMPLES x (keyPressTimings d))
               (set_lastKeyTime now d))).
  { intros x. repeat split; try (now apply Kept).
    apply pushTrim_change; [apply max_positive|exact H2]. }
  unfold handleKeyDown, detectMechanicalTyping.
  destruct (JS.geb _ _); [|now apply stores_buffersChange].
  repeat case_match; apply Hpush.
Qed.

Lemma handleClick_change d event now dom :
  withinCapacity d -> buffersChange d (fst (handleClick d event now dom)).
Proof.
  intros (_ & _ & H3 & _).
  assert (Hpush : forall x, buffersChange d
            (set_clickEvents (pushTrim CONFIG.QUARTER_SAMPLES x (clickEvents d)) d)).
  { intros x. repeat split; try (now apply Kept).
    apply pushTrim_change; [apply quarter_positive|exact H3]. }
  unfold handleClick.
  repeat case_match; try rewrite reportToServer_fst; apply Hpush.
Qed.

Lemma handleScroll_change d scrollY now :
  withinCapacity d -> buffersChange d (handleScroll d scrollY now).
Proof.
  intros (_ & _ & _ & H4 & _).
  assert (Hpush : forall x, buffersChange d
            (set_scrollEvents (pushTrim CONFIG.QUARTER_SAMPLES x (scrollEvents d)) d)).
  { intros x. repeat split; try (now apply Kept).
    apply pushTrim_change; [apply quarter_positive|exact H4]. }
  unfold handleScroll, detectMechanicalScrolling.
  repeat case_match; apply Hpush.
Qed.

Lemma handleFormInteraction_change d event now dom :
  withinCapacity d ->
  buffersChange d (fst (handleFormInteraction d event now dom)).
Proof.
  intros (_ & _ & _ & _ & H5).
  assert (Hpush : forall x, buffersChange d
            (set_formInteractions
               (pushTrim CONFIG.QUARTER_SAMPLES x (formInteractions d)) d)).
  { intros x. repeat split; try (now apply Kept).
    apply pushTrim_change; [apply quarter_positive|exact H5]. }
  unfold handleFormInteraction.
  destruct (_ || _); [|now apply stores_buffersChange].
  repeat case_match; try rewrite reportToServer_fst; apply Hpush.
Qed.

Lemma stop_change d : buffersChange d (stop d).
Proof. repeat split; now apply Cleared. Qed.

Lemma step_change dom p ev :
  withinCapacity (detector p) ->
  buffersChange (detector p) (detector (step dom p ev)).
Proof.
  intros H. destruct ev; simpl;
    try (destruct (listening p); simpl;
         [|now apply stores_buffersChange]).
  - now apply handleMouseMove_change.
  - now apply handleKeyDown_change.
  - now apply handleClick_change.
  - now apply handleScroll_change.
  - now apply handleFormInteraction_change.
  - apply stores_buffersChange. apply runAnalysis_stores.
  - apply stores_buffersChange. apply checkForAutomation_stores.
  - apply stores_buffersChange. apply onHeadResponse_stores.
  - unfold hookedFetch.
    repeat case_match; repeat split; now apply Kept.
  - apply stores_buffersChange. apply start_stores.
  - apply stop_change.
Qed.

(** ** Runs of the page *)

Lemma run_snoc dom evs ev p :
  run dom (evs ++ [ev]) p = step dom (run dom evs p) ev.
Proof. unfold run. now rewrite fold_left_app. Qed.

Lemma run_cons dom ev evs p :
  run dom (ev :: evs) p = run dom evs (step dom p ev).
Proof. reflexivity. Qed.

(** An invariant of [step] that holds of a page holds after every run. *)
Lemma run_invariant (I : Page -> Prop) dom :
  (forall p ev, I p -> I (step dom p ev)) ->
  forall evs p, I p -> I (run dom evs p).
Proof.
  intros Hstep evs. induction evs as [|ev evs IH]; intros p Hp; [exact Hp|].
  rewrite run_cons. apply IH, Hstep, Hp.
Qed.

Lemma newBotDetector_withinCapacity : withinCapacity newBotDetector.
Proof. repeat split; simpl; lia. Qed.

Lemma run_withinCapacity dom evs :
  withinCapacity (detector (run dom evs newPage)).
Proof.
  apply (run_invariant (fun p => withinCapacity (detector p))).
  - intros p ev Hp. eapply buffersChange_withinCapacity; [exact Hp|].
    now apply step_change.
  - apply newBotDetector_withinCapacity.
Qed.

(** Unfolds one method and splits its conditionals. *)
Ltac frame :=
  repeat first [rewrite reportToServer_fst | case_match];
  simpl; try reflexivity; try assumption.

Lemma step_isAnalyzing dom p ev :
  isAnalyzing (detector p) = false ->
  isAnalyzing (detector (step dom p ev)) = false.
Proof.
  intros H. destruct ev; simpl;
    try (destruct (listening p); simpl; [|exact H]).
  - unfold handleMouseMove. frame.
  - unfold handleKeyDown, detectMechanicalTyping. frame.
  - unfold handleClick. frame.
  - unfold handleScroll, detectMechanicalScrolling. frame.
  - unfold handleFormInteraction. frame.
  - now apply runAnalysis_isAnalyzing.
  - unfold checkForAutomation. frame.
  - unfold onHeadResponse. frame.
  - unfold hookedFetch. frame.
  - unfold start, detectAutomationLibraries. frame.
  - unfold stop. frame.
Qed.

(** Between host events the re-entrancy flag is down. *)
Lemma run_isAnalyzing dom evs :
  isAnalyzing (detector (run dom evs newPage)) = false.
Proof.
  apply (run_invariant (fun p => isAnalyzing (detector p) = false)).
  - intros p ev. apply step_isAnalyzing.
  - reflexivity.
Qed.

(** ** C5: bounded buffers with FIFO eviction *)

Lemma pushTrim_fifoPush {A} cap (x : A) old :
  0 < cap -> pushTrim cap x old = fifoPush cap x old.
Proof.
  intros Hcap. unfold pushTrim, fifoPush. rewrite length_app. simpl.
  destruct (Nat.ltb_spec cap (length old + 1)),
    (Nat.ltb_spec (length old) cap); try lia; [|reflexivity].
  destruct old; simpl in *; [lia|reflexivity].
Qed.

Lemma handleMouseMove_buffer d event now :
  mouseMovements (handleMouseMove d event now)
  = if JS.geb (now - lastMouseTime d)%float 50
    then fifoPush 200
           {| m_x := clientX event; m_y := clientY event; m_time := now |}
           (mouseMovements d)
    else mouseMovements d.
Proof.
  unfold handleMouseMove.
  change CONFIG.MOUSE_THROTTLE_MS with 50%float.
  destruct (JS.geb _ _); [|reflexivity].
  rewrite <- (pushTrim_fifoPush 200) by lia.
  repeat case_match; reflexivity.
Qed.

Lemma handleKeyDown_buffer d event now :
  keyPressTimings (handleKeyDown d event now)
  = if JS.geb (now - lastKeyTime d)%float 25
    then fifoPush 200
           {| k_time := now;
              k_modifiers :=
                {| shift := shiftKey event; ctrl := ctrlKey event;
                   alt := altKey event; meta := metaKey event |} |}
           (keyPressTimings d)
    else keyPressTimings d.
Proof.
  unfold handleKeyDown, detectMechanicalTyping.
  change CONFIG.KEYBOARD_THROTTLE_MS with 25%float.
  destruct (JS.geb _ _); [|reflexivity].
  rewrite <- (pushTrim_fifoPush 200) by lia.
  repeat case_match; reflexivity.
Qed.

Lemma handleClick_buffer d event now dom :
  clickEvents (fst (handleClick d event now dom))
  = fifoPush 50
      {| c_x := click_clientX event; c_y := click_clientY event;
         c_target := click_tagName event; c_time := now |}
      (clickEvents d).
Proof.
  rewrite <- (pushTrim_fifoPush 50) by lia.
  unfold handleClick. repeat case_match; rewrite ?reportToServer_fst;
    reflexivity.
Qed.

Lemma handleScroll_buffer d scrollY now :
  scrollEvents (handleScroll d scrollY now)
  = fifoPush 50 {| s_scrollY := scrollY; s_time := now |} (scrollEvents d).
Proof.
  rewrite <- (pushTrim_fifoPush 50) by lia.
  unfold handleScroll, detectMechanicalScrolling.
  repeat case_match; reflexivity.
Qed.

Lemma handleFormInteraction_buffer d event now dom :
  formInteractions (fst (handleFormInteraction d event now dom))
  = if String.eqb (input_tagName event) "INPUT"
       || String.eqb (input_tagName event) "SELECT"
       || String.eqb (input_tagName event) "TEXTAREA"
    then fifoPush 50
           {| f_field := orElse (input_name event)
                           (orElse (input_id event) (input_tagName event));
              f_time := now |}
           (formInteractions d)
    else formInteractions d.
Proof.
  unfold handleFormInteraction.
  destruct (_ || _); [|reflexivity].
  rewrite <- (pushTrim_fifoPush 50) by lia.
  repeat case_match; rewrite ?reportToServer_fst; reflexivity.
Qed.

(** C5.  After every sequence of host events on a fresh page (raw events
    in any number and at any spacing, timers, probes, fetches, start and
    stop), the pointer and key buffers hold at most 200 samples and the
    click, scroll and form buffers at most 50.  Every further event changes
    each buffer in one of four ways: it is kept, a sample is appended while
    there is room, the oldest sample is dropped and the new one appended
    when the buffer is full, or the buffer is emptied (by [stop]).  And
    every raw event that is recorded (listeners attached; for pointer and
    key events the throttle interval elapsed; for input events the target an
    INPUT, SELECT or TEXTAREA) leaves exactly the strict FIFO append of its
    own sample: the sample is last, and when the buffer was full its first,
    oldest sample is the one dropped; a raw event that is not recorded
    leaves its buffer as it was. *)
Theorem buffers_bounded_fifo (dom : DOM) (evs : list HostEvent) (ev : HostEvent) :
  let p := run dom evs newPage in
  let d := detector p in
  let d' := detector (step dom p ev) in
  (length (mouseMovements d) <= 200
   /\ length (keyPressTimings d) <= 200
   /\ length (clickEvents d) <= 50
   /\ length (scrollEvents d) <= 50
   /\ length (formInteractions d) <= 50)
  /\ (BufferChange 200 (mouseMovements d) (mouseMovements d')
      /\ BufferChange 200 (keyPressTimings d) (keyPressTimings d')
      /\ BufferChange 50 (clickEvents d) (clickEvents d')
      /\ BufferChange 50 (scrollEvents d) (scrollEvents d')
      /\ BufferChange 50 (formInteractions d) (formInteractions d'))
  /\ (forall event now,
      mouseMovements (detector (step dom p (MouseMoved event now)))
      = if listening p && JS.geb (now - lastMouseTime d)%float 50
        then fifoPush 200
               {| m_x := clientX event; m_y := clientY event; m_time := now |}
               (mouseMovements d)
        else mouseMovements d)
  /\ (forall event now,
      keyPressTimings (detector (step dom p (KeyPressed event now)))
      = if listening p && JS.geb (now - lastKeyTime d)%float 25
        then fifoPush 200
               {| k_time := now;
                  k_modifiers :=
                    {| shift := shiftKey event; ctrl := ctrlKey event;
                       alt := altKey event; meta := metaKey event |} |}
               (keyPressTimings d)
        else keyPressTimings d)
  /\ (forall event now,
      clickEvents (detector (step dom p (Clicked event now)))
      = if listening p
        then fifoPush 50
               {| c_x := click_clientX event; c_y := click_clientY event;
                  c_target := click_tagName event; c_time := now |}
               (clickEvents d)
        else clickEvents d)
  /\ (forall scrollY now,
      scrollEvents (detector (step dom p (Scrolled scrollY now)))
      = if listening p
        then fifoPush 50 {| s_scrollY := scrollY; s_time := now |}
               (scrollEvents d)
        else scrollEvents d)
  /\ (forall event now,
      formInteractions (detector (step dom p (InputChanged event now)))
      = if listening p
           && (String.eqb (input_tagName event) "INPUT"
               || String.eqb (input_tagName event) "SELECT"
               || String.eqb (input_tagName event) "TEXTAREA")
        then fifoPush 50
               {| f_field := orElse (input_name event)
                               (orElse (input_id event) (input_tagName event));
                  f_time := now |}
               (formInteractions d)
        else formInteractions d).
Proof.
  intros p d d'. split; [exact (run_withinCapacity dom evs)|].
  split; [exact (step_change dom _ ev (run_withinCapacity dom evs))|].
  repeat split; intros; simpl; destruct (listening p); simpl;
    try reflexivity.
  - apply handleMouseMove_buffer.
  - apply handleKeyDown_buffer.
  - apply handleClick_buffer.
  - apply handleScroll_buffer.
  - apply handleFormInteraction_buffer.
Qed.

(** The 201st pointer sample evicts the first one. *)
Example eviction_drops_oldest :
  let d := detector (run quietDom (burst 201) newPage) in
  length (mouseMovements d) = 200
  /\ option_map m_time (head (mouseMovements d)) = Some 200%float
  /\ option_map m_time (last (mouseMovements d)) = Some 20100%float.
Proof. vm_compute. repeat split. Qed.

(** ** C2: the analysis cycle *)

(** C2.  On every page reached by host events: with fewer than 2 pointer
    samples a cycle changes nothing and posts nothing; with 2 or more, and
    the DOM lookups of the navigation signal not raising, it fuses the four
    extractor scores with weights 0.45, 0.15, 0.25 and 0.15, takes 0.5 for a
    NaN fused value, stores 0.7 x previous + 0.3 x fused (0.5 should that be
    NaN) and posts one report carrying the new score. *)
Theorem analysis_cycle (dom : DOM) (evs : list HostEvent) :
  let d := detector (run dom evs newPage) in
  (length (mouseMovements d) < 2 -> runAnalysis d dom = (d, []))
  /\ (2 <= length (mouseMovements d) ->
      forall nav, calculateNavigationPatterns d dom = Return nav ->
      let fused :=
        (calculateMouseEntropy d * 0.45 + calculateTypingPatterns d * 0.15
         + nav * 0.25 + calculateFormFillingPatterns d * 0.15)%float in
      let valid := if JS.isNaN fused then 0.5%float else fused in
      let smoothed := (confidenceScore d * 0.7 + valid * 0.3)%float in
      let d' :=
        set_confidenceScore (if JS.isNaN smoothed then 0.5%float else smoothed) d in
      runAnalysis d dom = (d', [snapshot d' nav])).
Proof.
  intros d. pose proof (run_isAnalyzing dom evs) as Hflag. fold d in Hflag.
  clearbody d. split.
  - intros Hlen. unfold runAnalysis, analysisTry. rewrite Hflag.
    change (mouseMovements (set_isAnalyzing true d)) with (mouseMovements d).
    destruct (Nat.ltb_spec (length (mouseMovements d)) CONFIG.MIN_MOUSE_MOVEMENTS) as [_|Hge].
    + simpl. destruct d; simpl in *; subst; reflexivity.
    + unfold CONFIG.MIN_MOUSE_MOVEMENTS in Hge. lia.
  - intros Hlen nav Hnav fused valid smoothed d'.
    unfold runAnalysis, analysisTry. rewrite Hflag.
    change (mouseMovements (set_isAnalyzing true d)) with (mouseMovements d).
    destruct (Nat.ltb_spec (length (mouseMovements d)) CONFIG.MIN_MOUSE_MOVEMENTS) as [Hlt|_].
    + unfold CONFIG.MIN_MOUSE_MOVEMENTS in Hlt. lia.
    + rewrite (calculateNavigationPatterns_ext (set_isAnalyzing true d) d) by reflexivity.
      rewrite Hnav. simpl.
      change (calculateMouseEntropy (set_isAnalyzing true d))
        with (calculateMouseEntropy d).
      change (calculateTypingPatterns (set_isAnalyzing true d))
        with (calculateTypingPatterns d).
      change (calculateFormFillingPatterns (set_isAnalyzing true d))
        with (calculateFormFillingPatterns d).
      change (orNeutral (fuse (calculateMouseEntropy d)
                (calculateTypingPatterns d) nav
                (calculateFormFillingPatterns d))) with valid.
      fold smoothed.
      assert (Hrep : forall v,
                 reportToServer (set_confidenceScore v (set_isAnalyzing true d)) dom
                 = (set_confidenceScore v (set_isAnalyzing true d),
                    [snapshot (set_confidenceScore v d) nav])).
      { intros v. rewrite (reportToServer_Return _ dom nav); [reflexivity|].
        rewrite <- Hnav. now apply calculateNavigationPatterns_ext. }
      assert (Hback : forall v,
                 set_isAnalyzing false
                   (set_confidenceScore v (set_isAnalyzing true d))
                 = set_confidenceScore v d).
      { intros v. destruct d; simpl in *; subst; reflexivity. }
      subst d'. destruct (JS.isNaN smoothed).
      * change (set_confidenceScore 0.5%float
                  (set_confidenceScore smoothed (set_isAnalyzing true d)))
          with (set_confidenceScore 0.5%float (set_isAnalyzing true d)).
        rewrite Hrep, Hback. reflexivity.
      * rewrite Hrep, Hback. reflexivity.
Qed.

Lemma analysis_cycle_witness :
  runAnalysis newBotDetector quietDom = (newBotDetector, [])
  /\ map rep_confidenceScore
       (snd (runAnalysis (detector (run quietDom threeMoves newPage)) quietDom))
     = [0.4865%float].
Proof.
  split.
  - apply (proj1 (analysis_cycle quietDom [])). simpl. lia.
  - assert (H : 2 <= length (mouseMovements
                     (detector (run quietDom threeMoves newPage))))
      by (vm_compute; lia).
    rewrite (proj2 (analysis_cycle quietDom threeMoves) H 0.5%float eq_refl).
    vm_compute. reflexivity.
Defined.

(** ** C10: exceptions inside the cycle *)

(** C10.  When the [try] block of a cycle raises, [runAnalysis] still
    returns: the score is 0.5 whatever it was before, nothing is posted,
    every other field is as before and the flag is down again, so the next
    cycle is not skipped. *)
Theorem analysis_exception_neutral (d : BotDetector) (dom : DOM) (reason : string) :
  isAnalyzing d = false ->
  analysisTry (set_isAnalyzing true d) dom = Throw reason ->
  runAnalysis d dom = (set_confidenceScore 0.5%float d, [])
  /\ confidenceScore (fst (runAnalysis d dom)) = 0.5%float
  /\ isAnalyzing (fst (runAnalysis d dom)) = false.
Proof.
  intros Hflag Hthrow.
  assert (Hrun : runAnalysis d dom = (set_confidenceScore 0.5%float d, [])).
  { unfold runAnalysis. rewrite Hflag, Hthrow.
    destruct d; simpl in *; subst; reflexivity. }
  rewrite Hrun. simpl. auto.
Qed.

Lemma analysis_exception_neutral_witness :
  let d := detector (run throwingDom drivenClicks newPage) in
  confidenceScore d = 0.95%float
  /\ runAnalysis d throwingDom = (set_confidenceScore 0.5%float d, [])
  /\ confidenceScore (fst (runAnalysis d throwingDom)) = 0.5%float
  /\ isAnalyzing (fst (runAnalysis d throwingDom)) = false.
Proof.
  intros d. split; [vm_compute; reflexivity|].
  apply (analysis_exception_neutral d throwingDom "TypeError");
    vm_compute; reflexivity.
Defined.

(** ** C1: range of the confidence score *)

(** C1, evaluated where it fails.  A page started under a driver has score
    0.95; when the one-second check then finds the outer and inner window
    sizes equal it adds 0.1 without the cap of the other increments, and
    the score read by [getConfidenceScore] is above 1. *)
Theorem confidence_exceeds_one :
  let p := run quietDom [Started 1 true; AutomationCheckDue headlessWindow] newPage in
  getConfidenceScore (detector p) = (0.95 + 0.1)%float
  /\ (1 <? getConfidenceScore (detector p))%float = true.
Proof. vm_compute. split; reflexivity. Qed.

(** X22.  What [getConfidenceScore] returns is never NaN. *)
Lemma getConfidenceScore_not_nan (d : BotDetector) :
  JS.isNaN (getConfidenceScore d) = false.
Proof.
  unfold getConfidenceScore.
  destruct (JS.isNaN (confidenceScore d)) eqn:E; [reflexivity|exact E].
Qed.

(** ** C3: range of the extractors *)

(** C3, evaluated where it fails.  With exactly one key sample the typing
    extractor divides by a zero interval count, and with exactly two
    pointer samples the motion extractor divides by [length - 2 = 0]: both
    return NaN, which is not in [0,1].  One key press after start is
    enough to reach the first case. *)
Theorem extractors_nan_at_minimum (d : BotDetector) (k : KeySample) (p q : MouseSample) :
  calculateTypingPatterns (set_keyPressTimings [k] d) = nan
  /\ calculateMouseEntropy (set_mouseMovements [p; q] d) = nan
  /\ calculateTypingPatterns (detector (run quietDom oneKey newPage)) = nan
  /\ (0 <=? nan)%float = false.
Proof. repeat split. Qed.

(** Below the minimum counts both extractors return the neutral value. *)
Lemma extractors_neutral_below_minimum (d : BotDetector) :
  (length (mouseMovements d) < 2 -> calculateMouseEntropy d = 0.5%float)
  /\ (length (keyPressTimings d) < 1 -> calculateTypingPatterns d = 0.5%float).
Proof.
  split; intros H.
  - unfold calculateMouseEntropy.
    destruct (Nat.ltb_spec (length (mouseMovements d)) CONFIG.MIN_MOUSE_MOVEMENTS)
      as [_|Hge]; [reflexivity|]. unfold CONFIG.MIN_MOUSE_MOVEMENTS in Hge. lia.
  - unfold calculateTypingPatterns.
    destruct (Nat.ltb_spec (length (keyPressTimings d)) CONFIG.MIN_KEYPRESS_SAMPLES)
      as [_|Hge]; [reflexivity|]. unfold CONFIG.MIN_KEYPRESS_SAMPLES in Hge. lia.
Qed.

(** ** C4: the tier *)

(** C4.  When the navigation signal is [nav], the tier is L2 (High) if
    0.5 x confidence + 0.3 x nav + 0.2 x min(1, calls / 3) is at least 0.7,
    L1 (Moderate) if it is at least 0.4 and L0 (Low) otherwise, where
    confidence is the score read through [getConfidenceScore] and calls is
    the total of the endpoint counters.  The combination gives L0 at
    (0.2, 0.1, 0) and L2 at (0.9, 0.9, 5); a combined value of exactly 0.7
    is L2 and of exactly 0.4 is L1. *)
Theorem tier_classification (d : BotDetector) (dom : DOM) (nav : float) :
  calculateNavigationPatterns d dom = Return nav ->
  let combined :=
    (getConfidenceScore d * 0.5 + nav * 0.3
     + JS.min 1 (JS.ofN (endpointCount d) / 3) * 0.2)%float in
  getIntelligenceLevel d dom
  = Return (if (0.7 <=? combined)%float then L2
            else if (0.4 <=? combined)%float then L1 else L0)
  /\ levelOf (combinedScore 0.2 0.1 0) = L0
  /\ levelOf (combinedScore 0.9 0.9 5) = L2
  /\ levelOf 0.7 = L2
  /\ levelOf 0.4 = L1.
Proof.
  intros Hnav combined. split.
  - unfold getIntelligenceLevel. rewrite Hnav. reflexivity.
  - repeat split.
Qed.

Lemma tier_classification_witness :
  let d := detector (run quietDom drivenClicks newPage) in
  getIntelligenceLevel d quietDom = Return L1.
Proof.
  intros d.
  pose proof (tier_classification d quietDom 0.25%float eq_refl) as [H _].
  rewrite H. vm_compute. reflexivity.
Defined.

(** ** C6: strong matches of the environment probes *)




(** ** C7: the navigation signal *)

(** C7 as stated fails.  With three evenly timed scrolls the scroll
    sub-signal is 1, with two clicks on no element the click sub-signal is
    0; their average is 0.5 but the navigation signal is 0.375. *)
Lemma navigation_not_average :
  let d := detector (run quietDom scrollsAndClicks newPage) in
  length (scrollEvents d) = 3 /\ length (clickEvents d) = 2
  /\ scrollRegularity (scrollEvents d) = 1%float
  /\ centerClickRatio quietDom (clickEvents d) = Return 0%float
  /\ calculateNavigationPatterns d quietDom = Return 0.375%float
  /\ calculateNavigationPatterns d quietDom <> Return ((1 + 0) / 2)%float.
Proof. vm_compute. repeat split. discriminate. Qed.

(** C7, amended.  The signal starts from the baseline 0.5; with at least 3
    scroll samples it is averaged with the scroll regularity, and with at
    least 2 click samples the result is then averaged with the
    centre-click fraction.  With both sub-signals the value is therefore
    ((0.5 + regularity) / 2 + fraction) / 2; with one of them it is the
    average of that sub-signal and the baseline. *)
Theorem navigation_blend (d : BotDetector) (dom : DOM) :
  let regularity := scrollRegularity (scrollEvents d) in
  let scrolls := length (scrollEvents d) in
  let clicks := length (clickEvents d) in
  (3 <= scrolls -> 2 <= clicks ->
   forall fraction, centerClickRatio dom (clickEvents d) = Return fraction ->
   calculateNavigationPatterns d dom
   = Return (((0.5 + regularity) / 2 + fraction) / 2)%float)
  /\ (3 <= scrolls -> clicks < 2 ->
      calculateNavigationPatterns d dom = Return ((0.5 + regularity) / 2)%float)
  /\ (scrolls < 3 -> 2 <= clicks ->
      forall fraction, centerClickRatio dom (clickEvents d) = Return fraction ->
      calculateNavigationPatterns d dom = Return ((0.5 + fraction) / 2)%float).
Proof.
  intros regularity scrolls clicks. unfold calculateNavigationPatterns.
  fold scrolls clicks regularity.
  split; [|split].
  - intros Hs Hc fraction Hf.
    destruct (Nat.ltb_spec clicks 2); [lia|].
    destruct (Nat.leb_spec 3 scrolls); [|lia].
    destruct (Nat.leb_spec 2 clicks); [|lia].
    simpl. rewrite Hf. reflexivity.
  - intros Hs Hc.
    destruct (Nat.ltb_spec clicks 2); [|lia].
    destruct (Nat.ltb_spec scrolls 2); [lia|].
    destruct (Nat.leb_spec 3 scrolls); [|lia].
    destruct (Nat.leb_spec 2 clicks); [lia|].
    reflexivity.
  - intros Hs Hc fraction Hf.
    destruct (Nat.ltb_spec clicks 2); [lia|].
    destruct (Nat.leb_spec 3 scrolls); [lia|].
    destruct (Nat.leb_spec 2 clicks); [|lia].
    simpl. rewrite Hf. reflexivity.
Qed.

Lemma navigation_blend_witness :
  calculateNavigationPatterns
    (detector (run quietDom scrollsAndClicks newPage)) quietDom
  = Return 0.375%float
  /\ calculateNavigationPatterns
       (detector (run quietDom drivenClicks newPage)) quietDom
     = Return 0.25%float
  /\ calculateNavigationPatterns
       (detector (run quietDom threeScrolls newPage)) quietDom
     = Return 0.75%float.
Proof.
  split; [|split].
  - destruct (navigation_blend
                (detector (run quietDom scrollsAndClicks newPage)) quietDom)
      as (Hboth & _ & _).
    rewrite (Hboth ltac:(vm_compute; lia) ltac:(vm_compute; lia) 0%float eq_refl).
    vm_compute. reflexivity.
  - destruct (navigation_blend
                (detector (run quietDom drivenClicks newPage)) quietDom)
      as (_ & _ & Hclicks).
    rewrite (Hclicks ltac:(vm_compute; lia) ltac:(vm_compute; lia) 0%float eq_refl).
    vm_compute. reflexivity.
  - destruct (navigation_blend
                (detector (run quietDom threeScrolls newPage)) quietDom)
      as (_ & Hscrolls & _).
    rewrite (Hscrolls ltac:(vm_compute; lia) ltac:(vm_compute; lia)).
    vm_compute. reflexivity.
Defined.

(** ** C8: after [stop] *)

(** C8 as stated fails.  The HEAD probe of the constructor is not tied to
    the listeners: when it resolves after [stop] under an automation-like
    identity string, a report is posted. *)
Lemma report_after_stop :
  let stopped := run quietDom [Started 1 false; Stopped] newPage in
  let later :=
    step quietDom stopped (HeadResolved "Mozilla/5.0 HeadlessChrome/120.0") in
  outbox stopped = [] /\ length (outbox later) = 1.
Proof. vm_compute. split; reflexivity. Qed.

Lemma runAnalysis_few_samples d dom :
  length (mouseMovements d) < 2 -> snd (runAnalysis d dom) = [].
Proof.
  intros H. unfold runAnalysis. destruct (isAnalyzing d); [reflexivity|].
  unfold analysisTry.
  change (mouseMovements (set_isAnalyzing true d)) with (mouseMovements d).
  destruct (Nat.ltb_spec (length (mouseMovements d)) CONFIG.MIN_MOUSE_MOVEMENTS)
    as [_|Hge]; [reflexivity|].
  unfold CONFIG.MIN_MOUSE_MOVEMENTS in Hge. lia.
Qed.

Lemma silenced_stores p q :
  silenced p -> listening q = false ->
  stores (detector q) = stores (detector p) -> silenced q.
Proof.
  intros (_ & H1 & H2 & H3 & H4 & H5) Hl. unfold stores.
  intros [= E1 E2 E3 E4 E5 _]. repeat split; congruence.
Qed.

Lemma step_quiet dom p ev :
  quiet ev = true -> silenced p ->
  silenced (step dom p ev) /\ outbox (step dom p ev) = outbox p.
Proof.
  intros Hq Hs. pose proof Hs as (Hl & Hm & _).
  destruct ev; simpl in *; rewrite ?Hl; try (split; [exact Hs|reflexivity]);
    try discriminate.
  - split.
    + apply (silenced_stores p); [exact Hs|exact Hl|]. simpl.
      apply runAnalysis_stores.
    + rewrite runAnalysis_few_samples by (rewrite Hm; simpl; lia).
      apply app_nil_r.
  - split; [|reflexivity].
    apply (silenced_stores p); [exact Hs|exact Hl|].
    apply checkForAutomation_stores.
  - unfold onHeadResponse.
    destruct (isBotUserAgent navigatorUserAgent); [discriminate|]. simpl.
    split; [|apply app_nil_r].
    destruct Hs as (? & ? & ? & ? & ? & ?). repeat split; assumption.
  - split; [|reflexivity].
    destruct Hs as (? & ? & ? & ? & ? & ?).
    unfold hookedFetch. repeat case_match; repeat split; assumption.
  - split; [|reflexivity]. repeat split.
Qed.

Lemma stop_silenced dom p : silenced (step dom p Stopped).
Proof. repeat split. Qed.

Lemma run_quiet dom evs :
  Forall (fun ev => quiet ev = true) evs ->
  forall p, silenced p ->
  silenced (run dom evs p) /\ outbox (run dom evs p) = outbox p.
Proof.
  induction 1 as [|ev evs Hev _ IH]; intros p Hp; [split; [exact Hp|reflexivity]|].
  rewrite run_cons.
  destruct (step_quiet dom p ev Hev Hp) as [Hs Ho].
  destruct (IH _ Hs) as [Hs' Ho']. split; [exact Hs'|congruence].
Qed.

(** C8, amended.  After [stop], every sequence of raw events, timer
    firings, fetches, further stops and HEAD responses under an ordinary
    identity string leaves the listeners detached and the five buffers
    empty and posts no report.  (The one report that can still be posted
    is that of the HEAD probe resolving under an automation-like identity
    string.) *)
Theorem after_stop_silent (dom : DOM) (p : Page) (evs : list HostEvent) :
  Forall (fun ev => quiet ev = true) evs ->
  let q := run dom evs (step dom p Stopped) in
  listening q = false
  /\ mouseMovements (detector q) = []
  /\ keyPressTimings (detector q) = []
  /\ clickEvents (detector q) = []
  /\ scrollEvents (detector q) = []
  /\ formInteractions (detector q) = []
  /\ outbox q = outbox p.
Proof.
  intros Hq q.
  destruct (run_quiet dom evs Hq (step dom p Stopped) (stop_silenced dom p))
    as [(H0 & H1 & H2 & H3 & H4 & H5) Ho].
  repeat split; assumption.
Qed.

Lemma after_stop_silent_witness :
  let p := run quietDom threeMoves newPage in
  let q := run quietDom afterStopTraffic (step quietDom p Stopped) in
  length (mouseMovements (detector p)) = 3
  /\ mouseMovements (detector q) = []
  /\ outbox q = outbox p.
Proof.
  intros p q.
  assert (Hq : Forall (fun ev => quiet ev = true) afterStopTraffic)
    by (repeat constructor).
  destruct (after_stop_silent quietDom p afterStopTraffic Hq)
    as (_ & Hm & _ & _ & _ & _ & Ho).
  split; [vm_compute; reflexivity|]. split; [exact Hm|exact Ho].
Defined.

(** ** C9: the endpoint usage map *)

(** C9 as stated fails.  This path starts with the prefix and is not the
    reporting endpoint, yet the call is not counted, under any key. *)
Lemma other_metrics_path_not_counted :
  let url := "/bot/behaviorMetricsArchive"%string in
  JS.startsWith url "/bot/" = true
  /\ url <> reportEndpoint
  /\ botEndpointHits (hookedFetch newBotDetector (UrlString url))
     = botEndpointHits newBotDetector.
Proof. repeat split. discriminate. Qed.

Lemma hookedFetch_hitCount d input key :
  hitCount key (hookedFetch d input)
  = (hitCount key d + if counted key input then 1 else 0)%N.
Proof.
  unfold hitCount, hookedFetch, counted. destruct input as [url|]; [|simpl; lia].
  destruct (JS.startsWith url "/bot/" && negb (JS.includes url "behaviorMetrics"));
    simpl; [|lia].
  destruct (String.eqb_spec (JS.beforeQuery url) key) as [->|Hne].
  - rewrite lookup_insert_eq. simpl. lia.
  - rewrite lookup_insert_ne by exact Hne. lia.
Qed.

Lemma step_hitCount dom p ev key :
  hitCount key (detector (step dom p ev))
  = (hitCount key (detector p) + if observes key ev then 1 else 0)%N.
Proof.
  destruct ev; simpl; try apply hookedFetch_hitCount;
    rewrite N.add_0_r; unfold hitCount; f_equal; f_equal;
    try (destruct (listening p); simpl; [|reflexivity]).
  - unfold handleMouseMove. frame.
  - unfold handleKeyDown, detectMechanicalTyping. frame.
  - unfold handleClick. frame.
  - unfold handleScroll, detectMechanicalScrolling. frame.
  - unfold handleFormInteraction. frame.
  - pose proof (runAnalysis_stores (detector p) dom) as H.
    unfold stores in H. now injection H.
  - pose proof (checkForAutomation_stores (detector p) w) as H.
    unfold stores in H. now injection H.
  - pose proof (onHeadResponse_stores (detector p) navigatorUserAgent dom) as H.
    unfold stores in H. now injection H.
  - pose proof (start_stores (detector p) handle webdriver) as H.
    unfold stores in H. now injection H.
  - unfold stop. frame.
Qed.

(** C9, amended.  A call of [fetch] adds one to the counter of [key] if
    its first argument is a string that starts with [/bot/], does not
    contain [behaviorMetrics] and equals [key] up to its first question
    mark, and leaves the counter alone otherwise.  Over any run the counter
    grows by exactly the number of such calls, so it never decreases, and
    [stop] does not reset it. *)
Theorem endpoint_counting (dom : DOM) (evs : list HostEvent) (p : Page)
    (key : string) (input : FetchInput) :
  hitCount key (detector (step dom p (Fetched input)))
  = (hitCount key (detector p) + if counted key input then 1 else 0)%N
  /\ hitCount key (detector (run dom evs p))
     = (hitCount key (detector p)
        + N.of_nat (length (List.filter (observes key) evs)))%N
  /\ (hitCount key (detector p) <= hitCount key (detector (run dom evs p)))%N
  /\ botEndpointHits (detector (step dom p Stopped))
     = botEndpointHits (detector p).
Proof.
  assert (Hrun : forall evs p,
             hitCount key (detector (run dom evs p))
             = (hitCount key (detector p)
                + N.of_nat (length (List.filter (observes key) evs)))%N).
  { clear. intros evs. induction evs as [|ev evs IH]; intros p.
    - simpl. lia.
    - rewrite run_cons, IH, step_hitCount. simpl.
      destruct (observes key ev); simpl; lia. }
  split; [apply hookedFetch_hitCount|].
  split; [apply Hrun|].
  split; [rewrite Hrun; lia|].
  simpl. unfold stop. frame.
Qed.

(** * Further properties of the code *)

(** ** Order facts on numbers *)

Lemma SFcompare_antisym (x y : SpecFloat.spec_float) :
  SpecFloat.SFcompare y x = option_map CompOpp (SpecFloat.SFcompare x y).
Proof.
  destruct x as [sx|sx| |sx mx ex], y as [sy|sy| |sy my ey]; simpl;
    try reflexivity;
    try (destruct sx; reflexivity); try (destruct sy; reflexivity);
    try (destruct sx, sy; reflexivity).
  destruct sx, sy; simpl; try reflexivity;
    rewrite (Z.compare_antisym ex ey);
    destruct (ex ?= ey)%Z; simpl; try reflexivity;
    rewrite !Pos.compare_cont_spec; simpl;
    rewrite (Pos.compare_antisym mx my);
    destruct (mx ?= my)%positive; reflexivity.
Qed.

Lemma SFcompare_refl (x : SpecFloat.spec_float) :
  x <> SpecFloat.S754_nan -> SpecFloat.SFcompare x x = Some Eq.
Proof.
  destruct x as [s|s| |s m e]; simpl; intros H; try reflexivity.
  - destruct s; reflexivity.
  - congruence.
  - destruct s; rewrite Z.compare_refl;
      change (PosDef.Pos.compare_cont Eq m m) with (m ?= m)%positive;
      rewrite Pos.compare_refl; reflexivity.
Qed.

Lemma ltb_asym (x y : float) : (x <? y)%float = true -> (y <? x)%float = false.
Proof.
  rewrite !FloatAxioms.ltb_spec. unfold SpecFloat.SFltb.
  rewrite (SFcompare_antisym (Prim2SF x) (Prim2SF y)).
  destruct (SpecFloat.SFcompare (Prim2SF x) (Prim2SF y)) as [[| |]|];
    simpl; congruence.
Qed.

Lemma ltb_not_nan (x y : float) :
  (x <? y)%float = true -> JS.isNaN x = false /\ JS.isNaN y = false.
Proof.
  unfold JS.isNaN, PrimFloat.is_nan.
  rewrite FloatAxioms.ltb_spec, !FloatAxioms.eqb_spec.
  unfold SpecFloat.SFltb, SpecFloat.SFeqb. intros H.
  assert (Hx : Prim2SF x <> SpecFloat.S754_nan).
  { intros E. rewrite E in H. simpl in H. discriminate. }
  assert (Hy : Prim2SF y <> SpecFloat.S754_nan).
  { intros E. rewrite E in H. destruct (Prim2SF x); simpl in H; discriminate. }
  now rewrite !SFcompare_refl.
Qed.

(** [Math.min(c, x)] is never above [c]. *)
Lemma min_not_above (c x : float) : (c <? JS.min c x)%float = false.
Proof.
  unfold JS.min.
  destruct (PrimFloat.is_nan c || PrimFloat.is_nan x) eqn:Hnan.
  - destruct (c <? nan)%float eqn:E; [|reflexivity].
    apply ltb_not_nan in E. destruct E as [_ E]. discriminate.
  - destruct (c <? x)%float eqn:Hcx.
    + destruct (c <? c)%float eqn:E; [|reflexivity].
      pose proof (ltb_asym _ _ E). congruence.
    + destruct (x <? c)%float; [exact Hcx|].
      destruct (PrimFloat.get_sign c); [|exact Hcx].
      destruct (c <? c)%float eqn:E; [|reflexivity].
      pose proof (ltb_asym _ _ E). congruence.
Qed.

(** ** X1: the ceiling of the event-time increments *)

Lemma bump_ceiling delta d :
  (0.95 <? confidenceScore (bump delta d))%float = false.
Proof. apply min_not_above. Qed.

Lemma step_raw_ceiling (dom : DOM) (p : Page) (ev : HostEvent) :
  rawEvent ev = true ->
  (0.95 <? confidenceScore (detector p))%float = false ->
  (0.95 <? confidenceScore (detector (step dom p ev)))%float = false.
Proof.
  intros Hraw Hbefore.
  destruct ev; try discriminate; simpl;
    (destruct (listening p); simpl; [|exact Hbefore]).
  - unfold handleMouseMove. repeat case_match;
      first [apply bump_ceiling | exact Hbefore].
  - unfold handleKeyDown, detectMechanicalTyping. repeat case_match;
      first [apply bump_ceiling | exact Hbefore].
  - unfold handleClick. repeat case_match; rewrite ?reportToServer_fst;
      first [apply bump_ceiling | exact Hbefore].
  - unfold handleScroll, detectMechanicalScrolling. repeat case_match;
      first [apply bump_ceiling | exact Hbefore].
  - unfold handleFormInteraction. repeat case_match;
      rewrite ?reportToServer_fst;
      first [apply bump_ceiling | exact Hbefore].
Qed.

(** X1.  Raw events never take the score above 0.95: after any sequence
    of pointer, key, click, scroll and input events, whatever increments
    the handlers made, a score that was not above 0.95 is not above it. *)
Theorem raw_event_ceiling (dom : DOM) (p : Page) (evs : list HostEvent) :
  Forall (fun ev => rawEvent ev = true) evs ->
  (0.95 <? confidenceScore (detector p))%float = false ->
  (0.95 <? confidenceScore (detector (run dom evs p)))%float = false.
Proof.
  intros Hraw. revert p.
  induction Hraw as [|ev evs Hev _ IH]; intros p Hp; [exact Hp|].
  rewrite run_cons. apply IH. now apply step_raw_ceiling.
Qed.

Lemma raw_event_ceiling_witness :
  let p := step quietDom newPage (Started 1 false) in
  let q := run quietDom straightMoves p in
  confidenceScore (detector q) = 0.95%float
  /\ (0.95 <? confidenceScore (detector q))%float = false.
Proof.
  intros p q. split; [vm_compute; reflexivity|].
  apply (raw_event_ceiling quietDom p straightMoves).
  - unfold straightMoves. simpl. repeat constructor.
  - vm_compute. reflexivity.
Defined.

(** ** The cycle changes the score only *)

Lemma set_confidenceScore_same d : set_confidenceScore (confidenceScore d) d = d.
Proof. destruct d; reflexivity. Qed.

Lemma runAnalysis_only_score d dom :
  exists c, fst (runAnalysis d dom) = set_confidenceScore c d.
Proof.
  unfold runAnalysis. destruct (isAnalyzing d) eqn:Hflag.
  - exists (confidenceScore d). simpl. now rewrite set_confidenceScore_same.
  - assert (Hback : forall c,
               set_isAnalyzing false
                 (set_confidenceScore c (set_isAnalyzing true d))
               = set_confidenceScore c d).
    { intros c. destruct d; simpl in *; subst; reflexivity. }
    unfold analysisTry.
    destruct (Nat.ltb _ _).
    + exists (confidenceScore d). simpl.
      destruct d; simpl in *; subst; reflexivity.
    + destruct (calculateNavigationPatterns (set_isAnalyzing true d) dom)
        as [nav|e]; simpl.
      * match goal with
        | |- context [reportToServer ?x dom] =>
            destruct (reportToServer x dom) as [d' posted] eqn:Hrep;
            pose proof (reportToServer_fst x dom) as Hfst;
            rewrite Hrep in Hfst; simpl in Hfst; subst d'
        end.
        simpl. destruct (JS.isNaN _); eexists; apply Hback.
      * eexists. apply Hback.
Qed.

(** ** X2: the throttle *)

Lemma intervals_snoc times clock x :
  last times = Some clock ->
  JS.intervals (times ++ [x]) = JS.intervals times ++ [(x - clock)%float].
Proof.
  induction times as [|t0 [|t1 rest] IH]; intros Hlast.
  - discriminate.
  - injection Hlast as <-. reflexivity.
  - change (JS.intervals ((t0 :: t1 :: rest) ++ [x]))
      with ((t1 - t0)%float :: JS.intervals ((t1 :: rest) ++ [x])).
    rewrite IH by exact Hlast. reflexivity.
Qed.

Lemma intervals_tail times : JS.intervals (tail times) = tail (JS.intervals times).
Proof. destruct times as [|t0 [|t1 rest]]; reflexivity. Qed.

Lemma Forall_tail_of {A} (P : A -> Prop) l : Forall P l -> Forall P (tail l).
Proof. destruct 1; [constructor|assumption]. Qed.

Lemma spaced_tail gap times : spaced gap times -> spaced gap (tail times).
Proof. unfold spaced. rewrite intervals_tail. apply Forall_tail_of. Qed.

Lemma last_tail_snoc {A} (l : list A) x :
  tail (l ++ [x]) = [] \/ last (tail (l ++ [x])) = Some x.
Proof.
  destruct l as [|y ys]; simpl; [left; reflexivity|right; apply last_snoc].
Qed.

Lemma map_pushTrim {A B} (f : A -> B) cap x buf :
  map f (pushTrim cap x buf) = pushTrim cap (f x) (map f buf).
Proof.
  unfold pushTrim. rewrite !length_app, length_map. simpl.
  destruct (Nat.ltb cap (length buf + 1)).
  - destruct buf as [|b bs]; simpl; [reflexivity|]. now rewrite map_app.
  - now rewrite map_app.
Qed.

(** Appending a sample that passed the throttle keeps the spacing and
    moves the clock. *)
Lemma pushTrim_throttled gap cap clock now times :
  spaced gap times -> clockIsNewest clock times ->
  JS.geb (now - clock)%float gap = true ->
  spaced gap (pushTrim cap now times)
  /\ clockIsNewest now (pushTrim cap now times).
Proof.
  intros Hs Hc Hgap.
  assert (Hpushed : spaced gap (times ++ [now])).
  { destruct Hc as [->|Hlast]; [constructor|].
    unfold spaced. rewrite (intervals_snoc _ clock) by exact Hlast.
    apply Forall_app. split; [exact Hs|]. now constructor. }
  unfold pushTrim. destruct (Nat.ltb _ _).
  - split; [now apply spaced_tail|]. apply last_tail_snoc.
  - split; [exact Hpushed|]. right. apply last_snoc.
Qed.

Lemma throttled_same d d' :
  mouseMovements d' = mouseMovements d -> lastMouseTime d' = lastMouseTime d ->
  keyPressTimings d' = keyPressTimings d -> lastKeyTime d' = lastKeyTime d ->
  throttled d -> throttled d'.
Proof. unfold throttled. intros -> -> -> ->. exact id. Qed.

Lemma step_throttled dom p ev :
  throttled (detector p) -> throttled (detector (step dom p ev)).
Proof.
  intros H. pose proof H as [[Hms Hmc] [Hks Hkc]].
  destruct ev; simpl;
    try (destruct (listening p); simpl; [|exact H]).
  - unfold handleMouseMove.
    destruct (JS.geb _ _) eqn:Hgap; [|exact H].
    match goal with
    | |- throttled ?d' =>
        assert (Hd : throttled
                  (set_mouseMovements
                     (pushTrim CONFIG.MAX_SAMPLES
                        {| m_x := clientX event; m_y := clientY event;
                           m_time := now |}
                        (mouseMovements (detector p)))
                     (set_lastMouseTime now (detector p))))
    end.
    { split; [|exact (conj Hks Hkc)]. simpl. rewrite map_pushTrim. simpl.
      now apply (pushTrim_throttled _ _ (lastMouseTime (detector p))). }
    repeat case_match; first [exact Hd | revert Hd; apply throttled_same; reflexivity].
  - unfold handleKeyDown.
    destruct (JS.geb _ _) eqn:Hgap; [|exact H].
    match goal with
    | |- throttled ?d' =>
        assert (Hd : throttled
                  (set_keyPressTimings
                     (pushTrim CONFIG.MAX_SAMPLES
                        {| k_time := now;
                           k_modifiers :=
                             {| shift := shiftKey event; ctrl := ctrlKey event;
                                alt := altKey event; meta := metaKey event |} |}
                        (keyPressTimings (detector p)))
                     (set_lastKeyTime now (detector p))))
    end.
    { split; [exact (conj Hms Hmc)|]. simpl. rewrite map_pushTrim. simpl.
      now apply (pushTrim_throttled _ _ (lastKeyTime (detector p))). }
    unfold detectMechanicalTyping.
    repeat case_match; first [exact Hd | revert Hd; apply throttled_same; reflexivity].
  - revert H. apply throttled_same; unfold handleClick; frame.
  - revert H. apply throttled_same;
      unfold handleScroll, detectMechanicalScrolling; frame.
  - revert H. apply throttled_same; unfold handleFormInteraction; frame.
  - destruct (runAnalysis_only_score (detector p) dom) as [c Hc].
    rewrite Hc. revert H. apply throttled_same; reflexivity.
  - revert H. apply throttled_same; unfold checkForAutomation; frame.
  - revert H. apply throttled_same; unfold onHeadResponse; frame.
  - revert H. apply throttled_same; unfold hookedFetch; frame.
  - revert H. apply throttled_same;
      unfold start, detectAutomationLibraries; frame.
  - unfold throttled, spaced, clockIsNewest. simpl.
    repeat split; first [left; reflexivity | constructor].
Qed.

(** X2.  On every page reached from a fresh detector, consecutive pointer
    samples in the buffer are at least 50 ms apart and consecutive key
    samples at least 25 ms apart (events arriving sooner were dropped), and
    each throttle clock is the time of the newest sample of its buffer. *)
Theorem throttle_spacing (dom : DOM) (evs : list HostEvent) :
  let d := detector (run dom evs newPage) in
  Forall (fun i => (50 <=? i)%float = true)
    (JS.intervals (map m_time (mouseMovements d)))
  /\ Forall (fun i => (25 <=? i)%float = true)
       (JS.intervals (map k_time (keyPressTimings d)))
  /\ (mouseMovements d = []
      \/ option_map m_time (last (mouseMovements d)) = Some (lastMouseTime d))
  /\ (keyPressTimings d = []
      \/ option_map k_time (last (keyPressTimings d)) = Some (lastKeyTime d)).
Proof.
  intros d.
  assert (H : throttled d).
  { apply (run_invariant (fun p => throttled (detector p))).
    - intros p ev. apply step_throttled.
    - unfold throttled, spaced, clockIsNewest. simpl.
      repeat split; first [left; reflexivity | constructor]. }
  destruct H as [[Hms Hmc] [Hks Hkc]].
  assert (Hlast : forall {A} (f : A -> float) (l : list A) c,
             clockIsNewest c (map f l) ->
             l = [] \/ option_map f (last l) = Some c).
  { intros A f l c [E|E].
    - left. now destruct l.
    - right. revert E. induction l as [|a [|b l] IH]; simpl; intros E.
      + discriminate.
      + injection E as <-. reflexivity.
      + apply IH. exact E. }
  repeat split; [exact Hms|exact Hks|now apply Hlast|now apply Hlast].
Qed.

(** ** X3, X4: the window of the mechanical-input checks *)

Lemma short_iff_window {A} n k (l1 l2 : list A) :
  k <= n -> firstn n l1 = firstn n l2 ->
  Nat.ltb (length l1) k = Nat.ltb (length l2) k.
Proof.
  intros Hk E. apply (f_equal (@length A)) in E. rewrite !length_firstn in E.
  destruct (Nat.ltb_spec (length l1) k), (Nat.ltb_spec (length l2) k);
    try reflexivity; lia.
Qed.

Lemma detectMechanicalTyping_window (d1 d2 : BotDetector) :
  confidenceScore d1 = confidenceScore d2 ->
  firstn 5 (keyPressTimings d1) = firstn 5 (keyPressTimings d2) ->
  confidenceScore (detectMechanicalTyping d1)
  = confidenceScore (detectMechanicalTyping d2).
Proof.
  intros Hscore Hwin. unfold detectMechanicalTyping.
  rewrite (short_iff_window 5 3 _ _ ltac:(lia) Hwin).
  rewrite !firstn_map, Hwin.
  repeat case_match; simpl; now rewrite ?Hscore.
Qed.

Lemma detectMechanicalScrolling_window (d1 d2 : BotDetector) :
  confidenceScore d1 = confidenceScore d2 ->
  firstn 4 (scrollEvents d1) = firstn 4 (scrollEvents d2) ->
  confidenceScore (detectMechanicalScrolling d1)
  = confidenceScore (detectMechanicalScrolling d2).
Proof.
  intros Hscore Hwin. unfold detectMechanicalScrolling.
  rewrite (short_iff_window 4 3 _ _ ltac:(lia) Hwin), Hwin.
  repeat case_match; simpl; now rewrite ?Hscore.
Qed.

(** X3.  The mechanical-typing check reads the five oldest key samples of
    the buffer and the mechanical-scrolling check the four oldest scroll
    samples: two detectors with the same score that agree on those samples
    come out with the same score, whatever the later samples are. *)
Theorem mechanical_checks_read_oldest (d1 d2 : BotDetector) :
  confidenceScore d1 = confidenceScore d2 ->
  (firstn 5 (keyPressTimings d1) = firstn 5 (keyPressTimings d2) ->
   confidenceScore (detectMechanicalTyping d1)
   = confidenceScore (detectMechanicalTyping d2))
  /\ (firstn 4 (scrollEvents d1) = firstn 4 (scrollEvents d2) ->
      confidenceScore (detectMechanicalScrolling d1)
      = confidenceScore (detectMechanicalScrolling d2)).
Proof.
  intros Hscore. split; intros Hwin.
  - now apply detectMechanicalTyping_window.
  - now apply detectMechanicalScrolling_window.
Qed.

Lemma mechanical_checks_read_oldest_witness :
  let d1 := detector (run quietDom steadyThenErratic newPage) in
  let d2 := set_keyPressTimings (firstn 5 (keyPressTimings d1)) d1 in
  length (keyPressTimings d1) = 8 /\ length (keyPressTimings d2) = 5
  /\ confidenceScore (detectMechanicalTyping d1)
     = confidenceScore (detectMechanicalTyping d2).
Proof.
  intros d1 d2. split; [vm_compute; reflexivity|].
  split; [vm_compute; reflexivity|].
  apply (mechanical_checks_read_oldest d1 d2); vm_compute; reflexivity.
Defined.

(** X4.  While the key buffer holds between 5 and 199 samples, the verdict
    on an accepted key press does not depend on that key press: the score
    after it is the score the mechanical-typing check gives on the buffer
    as it was.  Likewise for a scroll event while the scroll buffer holds
    between 4 and 49 samples. *)
Theorem verdict_ignores_new_sample (d : BotDetector) :
  (forall event now,
      5 <= length (keyPressTimings d) < 200 ->
      JS.geb (now - lastKeyTime d)%float 25 = true ->
      confidenceScore (handleKeyDown d event now)
      = confidenceScore (detectMechanicalTyping d))
  /\ (forall scrollY now,
      4 <= length (scrollEvents d) < 50 ->
      confidenceScore (handleScroll d scrollY now)
      = confidenceScore (detectMechanicalScrolling d)).
Proof.
  split.
  - intros event now Hlen Hgap. unfold handleKeyDown.
    change CONFIG.KEYBOARD_THROTTLE_MS with 25%float. rewrite Hgap.
    change (keyPressTimings (set_lastKeyTime now d)) with (keyPressTimings d).
    rewrite pushTrim_room by (unfold CONFIG.MAX_SAMPLES; lia).
    match goal with
    | |- context [Nat.leb 3 (length (keyPressTimings ?x))] =>
        destruct (Nat.leb_spec 3 (length (keyPressTimings x))) as [_|Hlt];
        [apply detectMechanicalTyping_window; [reflexivity|]
        |simpl in Hlt; rewrite length_app in Hlt; simpl in Hlt; lia]
    end.
    simpl. rewrite firstn_app.
    replace (5 - length (keyPressTimings d)) with 0 by lia.
    simpl. apply app_nil_r.
  - intros scrollY now Hlen. unfold handleScroll.
    rewrite pushTrim_room by (change CONFIG.QUARTER_SAMPLES with 50; lia).
    match goal with
    | |- context [Nat.leb 3 (length (scrollEvents ?x))] =>
        destruct (Nat.leb_spec 3 (length (scrollEvents x))) as [_|Hlt];
        [apply detectMechanicalScrolling_window; [reflexivity|]
        |simpl in Hlt; rewrite length_app in Hlt; simpl in Hlt; lia]
    end.
    simpl. rewrite firstn_app.
    replace (4 - length (scrollEvents d)) with 0 by lia.
    simpl. apply app_nil_r.
Qed.

Lemma verdict_ignores_new_sample_witness :
  let d := detector (run quietDom steadyKeys newPage) in
  confidenceScore (handleKeyDown d plainKey 5000)
  = confidenceScore (detectMechanicalTyping d)
  /\ (confidenceScore d <? confidenceScore (handleKeyDown d plainKey 5000))%float
     = true.
Proof.
  intros d. split; [|vm_compute; reflexivity].
  apply (proj1 (verdict_ignores_new_sample d) plainKey 5000%float);
    [vm_compute; lia|vm_compute; reflexivity].
Defined.

(** ** X5: range of the form-fill extractor *)

(** X5.  The form-fill extractor returns one of six values, so its result
    is never NaN and lies between 0.2 and 0.95, whatever the buffer holds
    (also when the average interval is NaN or infinite). *)
Theorem form_filling_range (d : BotDetector) :
  let r := calculateFormFillingPatterns d in
  In r [0.5; 0.95; 0.8; 0.6; 0.4; 0.2]%float
  /\ JS.isNaN r = false
  /\ (0.2 <=? r)%float = true /\ (r <=? 0.95)%float = true.
Proof.
  unfold calculateFormFillingPatterns.
  repeat case_match; simpl; (split; [tauto|repeat split]).
Qed.

(** ** X6: range of the scroll regularity *)

Lemma max_cases c x : JS.max c x = nan \/ JS.max c x = c \/ JS.max c x = x.
Proof. unfold JS.max. repeat case_match; auto. Qed.

Lemma max_not_below (c x : float) : (JS.max c x <? c)%float = false.
Proof.
  unfold JS.max.
  destruct (PrimFloat.is_nan c || PrimFloat.is_nan x).
  - destruct (nan <? c)%float eqn:E; [|reflexivity].
    apply ltb_not_nan in E. destruct E as [E _]. discriminate.
  - destruct (c <? x)%float eqn:Hcx; [now apply ltb_asym|].
    assert (Hcc : (c <? c)%float = false).
    { destruct (c <? c)%float eqn:E; [|reflexivity].
      pose proof (ltb_asym _ _ E). congruence. }
    destruct (x <? c)%float eqn:Hxc; [exact Hcc|].
    destruct (PrimFloat.get_sign c); [exact Hxc|exact Hcc].
Qed.

(** X6.  The scroll-regularity sub-signal is clamped: for every scroll
    buffer it is neither below 0 nor above 1. *)
Theorem scroll_regularity_clamped (scrolls : list ScrollSample) :
  (scrollRegularity scrolls <? 0)%float = false
  /\ (1 <? scrollRegularity scrolls)%float = false.
Proof.
  unfold scrollRegularity. split; [apply max_not_below|].
  match goal with
  | |- (1 <? JS.max 0 ?z)%float = false =>
      destruct (max_cases 0%float z) as [-> | [-> | ->]]
  end; [reflexivity|reflexivity|apply min_not_above].
Qed.

(** ** X7: a likely bot has a proper score *)

(** X7.  When [isLikelyBot] answers true the stored score is not NaN, so
    [getConfidenceScore] returns the stored score itself and not the
    neutral fallback. *)
Theorem likely_bot_score_is_stored (d : BotDetector) :
  isLikelyBot d = true ->
  JS.isNaN (confidenceScore d) = false
  /\ getConfidenceScore d = confidenceScore d
  /\ (0.55 <? getConfidenceScore d)%float = true.
Proof.
  unfold isLikelyBot, JS.gtb, getConfidenceScore. intros H.
  destruct (ltb_not_nan _ _ H) as [_ Hnan]. rewrite Hnan. auto.
Qed.

Lemma likely_bot_score_is_stored_witness :
  let d := detector (run quietDom drivenClicks newPage) in
  getConfidenceScore d = 0.95%float.
Proof.
  intros d.
  destruct (likely_bot_score_is_stored d) as (_ & -> & _);
    vm_compute; reflexivity.
Defined.

(** ** Strings *)

Lemma append_cons (c : ascii) (a b : string) :
  String.append (String c a) b = String c (String.append a b).
Proof. reflexivity. Qed.

Lemma append_nil (b : string) : String.append EmptyString b = b.
Proof. reflexivity. Qed.

Lemma prefix_iff (p s : string) :
  String.prefix p s = true <-> exists r, s = String.append p r.
Proof.
  revert s. induction p as [|a p IH]; intros s.
  - split; [intros _; exists s; reflexivity|]. intros _. now destruct s.
  - destruct s as [|b s]; simpl.
    + split; [discriminate|]. intros [r Hr]. rewrite append_cons in Hr.
      discriminate.
    + destruct (ascii_dec a b) as [->|Hne].
      * rewrite IH. split; intros [r Hr]; exists r;
          rewrite append_cons in *; congruence.
      * split; [discriminate|]. intros [r Hr].
        rewrite append_cons in Hr. congruence.
Qed.

Lemma append_assoc (a b c : string) :
  String.append (String.append a b) c = String.append a (String.append b c).
Proof.
  induction a as [|x a IH]; [reflexivity|].
  rewrite !append_cons. now rewrite IH.
Qed.

Lemma includes_iff (s p : string) :
  JS.includes s p = true
  <-> exists a b, s = String.append a (String.append p b).
Proof.
  induction s as [|c s IH].
  - change (JS.includes EmptyString p)
      with (String.prefix p EmptyString || false).
    rewrite orb_false_r, prefix_iff. split.
    + intros [r Hr]. exists EmptyString, r. exact Hr.
    + intros ([|? ?] & b & Hb); [exists b; exact Hb|].
      rewrite append_cons in Hb. discriminate.
  - change (JS.includes (String c s) p)
      with (String.prefix p (String c s) || JS.includes s p).
    rewrite orb_true_iff, prefix_iff, IH. split.
    + intros [[r Hr]|(a & b & Hab)].
      * exists EmptyString, r. exact Hr.
      * exists (String c a), b. rewrite append_cons. now rewrite Hab.
    + intros ([|c' a] & b & Hab).
      * left. exists b. exact Hab.
      * right. exists a, b. rewrite append_cons in Hab. congruence.
Qed.

Lemma beforeQuery_prefix (s : string) :
  exists rest, s = String.append (JS.beforeQuery s) rest.
Proof.
  induction s as [|c s [rest IH]]; simpl.
  - exists EmptyString. reflexivity.
  - destruct (Ascii.eqb c "?").
    + exists (String c s). reflexivity.
    + exists rest. rewrite append_cons. congruence.
Qed.

Lemma beforeQuery_no_mark (s : string) :
  JS.includes (JS.beforeQuery s) "?" = false.
Proof.
  induction s as [|c s IH]; simpl; [reflexivity|].
  destruct (Ascii.eqb_spec c "?") as [->|Hne]; [reflexivity|].
  change (JS.includes (String c (JS.beforeQuery s)) "?")
    with (String.prefix "?" (String c (JS.beforeQuery s))
          || JS.includes (JS.beforeQuery s) "?").
  rewrite IH, orb_false_r.
  destruct (String.prefix "?" (String c (JS.beforeQuery s))) eqn:E;
    [|reflexivity].
  apply prefix_iff in E. destruct E as [r Hr].
  rewrite append_cons in Hr. congruence.
Qed.

Lemma beforeQuery_keeps_prefix (url : string) :
  JS.startsWith url "/bot/" = true ->
  JS.startsWith (JS.beforeQuery url) "/bot/" = true.
Proof.
  unfold JS.startsWith. rewrite !prefix_iff. intros [r ->].
  exists (JS.beforeQuery r). reflexivity.
Qed.

Lemma beforeQuery_excludes (url word : string) :
  JS.includes url word = false ->
  JS.includes (JS.beforeQuery url) word = false.
Proof.
  intros H. destruct (JS.includes (JS.beforeQuery url) word) eqn:E; [|reflexivity].
  apply includes_iff in E. destruct E as (a & b & E).
  destruct (beforeQuery_prefix url) as [rest Hrest].
  assert (Hin : JS.includes url word = true).
  { apply includes_iff. exists a, (String.append b rest).
    rewrite Hrest at 1. rewrite E. now rewrite !append_assoc. }
  congruence.
Qed.

(** ** X8: what the endpoint map holds *)

(** The usage map after one host event. *)
Lemma step_hits dom p ev :
  botEndpointHits (detector (step dom p ev))
  = match ev with
    | Fetched input => botEndpointHits (hookedFetch (detector p) input)
    | _ => botEndpointHits (detector p)
    end.
Proof.
  destruct ev; simpl; try reflexivity;
    try (destruct (listening p); simpl; [|reflexivity]).
  - unfold handleMouseMove. frame.
  - unfold handleKeyDown, detectMechanicalTyping. frame.
  - unfold handleClick. frame.
  - unfold handleScroll, detectMechanicalScrolling. frame.
  - unfold handleFormInteraction. frame.
  - destruct (runAnalysis_only_score (detector p) dom) as [c ->]. reflexivity.
  - unfold checkForAutomation. frame.
  - unfold onHeadResponse. frame.
  - unfold start, detectAutomationLibraries. frame.
  - unfold stop. frame.
Qed.

Lemma hookedFetch_keys d input :
  privilegedKeys (botEndpointHits d) ->
  privilegedKeys (botEndpointHits (hookedFetch d input)).
Proof.
  intros H. unfold hookedFetch. destruct input as [url|]; [|exact H].
  destruct (JS.startsWith url "/bot/") eqn:Hp; simpl; [|exact H].
  destruct (JS.includes url "behaviorMetrics") eqn:Hb; simpl; [exact H|].
  intros key n. rewrite lookup_insert.
  destruct (decide (JS.beforeQuery url = key)) as [<-|Hne]; [|apply H].
  intros [= <-]. repeat split.
  - now apply beforeQuery_keeps_prefix.
  - now apply beforeQuery_excludes.
  - apply beforeQuery_no_mark.
  - lia.
Qed.

(** X8.  On every page reached from a fresh detector every key of the
    usage map starts with [/bot/], contains neither [behaviorMetrics] nor a
    question mark, and has a count of at least 1; in particular the
    reporting endpoint is never a key. *)
Theorem usage_map_keys (dom : DOM) (evs : list HostEvent) (key : string) (n : N) :
  botEndpointHits (detector (run dom evs newPage)) !! key = Some n ->
  JS.startsWith key "/bot/" = true
  /\ JS.includes key "behaviorMetrics" = false
  /\ JS.includes key "?" = false
  /\ (1 <= n)%N
  /\ key <> reportEndpoint.
Proof.
  intros Hkey.
  assert (H : privilegedKeys (botEndpointHits (detector (run dom evs newPage)))).
  { apply (run_invariant (fun p => privilegedKeys (botEndpointHits (detector p)))).
    - intros p ev Hp. rewrite step_hits.
      destruct ev; try exact Hp. now apply hookedFetch_keys.
    - intros k v Hk. simpl in Hk. rewrite lookup_empty in Hk. discriminate. }
  destruct (H key n Hkey) as (H1 & H2 & H3 & H4).
  repeat split; try assumption.
  intros ->. vm_compute in H2. discriminate.
Qed.

Lemma usage_map_keys_witness :
  JS.startsWith "/bot/intent" "/bot/" = true
  /\ JS.includes "/bot/intent" "behaviorMetrics" = false
  /\ JS.includes "/bot/intent" "?" = false
  /\ (1 <= 2)%N
  /\ "/bot/intent"%string <> reportEndpoint.
Proof.
  apply (usage_map_keys quietDom fetchTraffic "/bot/intent" 2%N).
  vm_compute. reflexivity.
Defined.

(** ** X9: the total read by the tier *)

Lemma endpointCount_insert (hits : gmap string N) key :
  map_fold (fun _ v acc => (acc + v)%N) 0%N
    (<[key := (default 0 (hits !! key) + 1)%N]> hits)
  = (map_fold (fun _ v acc => (acc + v)%N) 0%N hits + 1)%N.
Proof.
  assert (Hcomm : forall (m : gmap string N) (j1 j2 : string) (z1 z2 y : N),
             j1 <> j2 -> m !! j1 = Some z1 -> m !! j2 = Some z2 ->
             (y + z2 + z1 = y + z1 + z2)%N) by (intros; lia).
  destruct (hits !! key) as [v|] eqn:Hk; simpl.
  - rewrite <- (insert_delete_eq hits).
    rewrite map_fold_insert_L;
      [|intros; lia|apply lookup_delete_eq].
    rewrite (map_fold_delete_L _ _ key v hits); [lia|intros; lia|exact Hk].
  - rewrite map_fold_insert_L; [lia|intros; lia|exact Hk].
Qed.

Lemma step_endpointCount dom p ev :
  endpointCount (detector (step dom p ev))
  = (endpointCount (detector p) + if countedCall ev then 1 else 0)%N.
Proof.
  unfold endpointCount. rewrite step_hits.
  destruct ev; simpl; try lia.
  destruct input as [url|]; simpl; [|lia].
  destruct (JS.startsWith url "/bot/" && negb (JS.includes url "behaviorMetrics"));
    simpl; [apply endpointCount_insert|lia].
Qed.

(** X9.  The total of the usage map, which the tier reads, grows over any
    run by exactly the number of counted calls of [fetch] (string argument
    starting with [/bot/] and not containing [behaviorMetrics]); no other
    event, the posting of reports included, changes it. *)
Theorem endpoint_total (dom : DOM) (evs : list HostEvent) (p : Page) :
  endpointCount (detector (run dom evs p))
  = (endpointCount (detector p)
     + N.of_nat (length (List.filter countedCall evs)))%N.
Proof.
  revert p. induction evs as [|ev evs IH]; intros p.
  - simpl. lia.
  - rewrite run_cons, IH, step_endpointCount. simpl.
    destruct (countedCall ev); simpl; lia.
Qed.

(** ** X10, X11: the identity-string test *)

Lemma isBotUserAgent_existsb ua :
  isBotUserAgent ua = existsb (JS.includes (JS.toLowerCase ua)) botWords.
Proof.
  unfold isBotUserAgent, botWords. simpl.
  repeat destruct (JS.includes _ _); reflexivity.
Qed.

(** X10.  An identity string is taken for an automated agent exactly when
    its lower-cased form contains one of the eight words as a contiguous
    substring. *)
Theorem bot_user_agent_iff (ua : string) :
  isBotUserAgent ua = true
  <-> exists word before after,
        In word botWords
        /\ JS.toLowerCase ua
           = String.append before (String.append word after).
Proof.
  rewrite isBotUserAgent_existsb, existsb_exists. split.
  - intros (word & Hin & Hinc). apply includes_iff in Hinc.
    destruct Hinc as (a & b & E). now exists word, a, b.
  - intros (word & a & b & Hin & E). exists word. split; [exact Hin|].
    apply includes_iff. now exists a, b.
Qed.

Lemma toLowerCase_append (a b : string) :
  JS.toLowerCase (String.append a b)
  = String.append (JS.toLowerCase a) (JS.toLowerCase b).
Proof.
  induction a as [|c a IH]; [reflexivity|].
  rewrite append_cons. simpl. rewrite IH. now rewrite append_cons.
Qed.

(** X11.  The test looks anywhere in the string and ignores ASCII case: a
    string that embeds a flagged string is flagged, and two strings with
    the same lower-cased form get the same verdict. *)
Theorem bot_user_agent_stable (ua : string) :
  (forall before after,
      isBotUserAgent ua = true ->
      isBotUserAgent (String.append before (String.append ua after)) = true)
  /\ (forall other,
      JS.toLowerCase other = JS.toLowerCase ua ->
      isBotUserAgent other = isBotUserAgent ua).
Proof.
  split.
  - intros before after H.
    rewrite isBotUserAgent_existsb, existsb_exists in H.
    destruct H as (word & Hin & Hinc). apply includes_iff in Hinc.
    destruct Hinc as (a & b & E).
    rewrite isBotUserAgent_existsb, existsb_exists.
    exists word. split; [exact Hin|]. apply includes_iff.
    exists (String.append (JS.toLowerCase before) a).
    exists (String.append b (JS.toLowerCase after)).
    rewrite !toLowerCase_append, E, !append_assoc. reflexivity.
  - intros other E. unfold isBotUserAgent. now rewrite E.
Qed.

Lemma bot_user_agent_stable_witness :
  isBotUserAgent "Mozilla/5.0 (X11) HeadlessChrome/120.0 Safari" = true
  /\ isBotUserAgent "HEADLESSCHROME" = isBotUserAgent "HeadlessChrome".
Proof.
  destruct (bot_user_agent_stable "HeadlessChrome") as [Hembed Hcase].
  split.
  - apply (Hembed "Mozilla/5.0 (X11) "%string "/120.0 Safari"%string).
    vm_compute. reflexivity.
  - apply Hcase. vm_compute. reflexivity.
Defined.

(** ** X12: reports match the detector *)

Lemma reportToServer_matches d dom r :
  In r (snd (reportToServer d dom)) -> reportMatches r d.
Proof.
  unfold reportToServer.
  destruct (calculateNavigationPatterns d dom); simpl; [|tauto].
  intros [<-|[]]. repeat split.
Qed.

Lemma reportToServer_at_most_one d dom :
  length (snd (reportToServer d dom)) <= 1.
Proof.
  unfold reportToServer.
  destruct (calculateNavigationPatterns d dom); simpl; lia.
Qed.

Lemma reportMatches_same r d d' :
  stores d' = stores d -> confidenceScore d' = confidenceScore d ->
  reportMatches r d -> reportMatches r d'.
Proof.
  unfold stores, reportMatches. intros [= -> -> -> -> -> _] ->. exact id.
Qed.

Lemma runAnalysis_posted d dom :
  length (snd (runAnalysis d dom)) <= 1
  /\ forall r, In r (snd (runAnalysis d dom)) ->
               reportMatches r (fst (runAnalysis d dom)).
Proof.
  unfold runAnalysis. destruct (isAnalyzing d); [simpl; split; [lia|tauto]|].
  unfold analysisTry. destruct (Nat.ltb _ _); [simpl; split; [lia|tauto]|].
  destruct (calculateNavigationPatterns (set_isAnalyzing true d) dom)
    as [nav|e]; simpl; [|split; [lia|tauto]].
  match goal with
  | |- context [reportToServer ?x dom] =>
      pose proof (reportToServer_matches x dom) as Hm;
      pose proof (reportToServer_at_most_one x dom) as Hone;
      pose proof (reportToServer_fst x dom) as Hfst;
      destruct (reportToServer x dom) as [d' posted]
  end.
  simpl in *. subst d'. split; [exact Hone|].
  intros r Hr. specialize (Hm r Hr). revert Hm.
  apply reportMatches_same; destruct (JS.isNaN _); reflexivity.
Qed.

Lemma step_posted dom p ev :
  exists posted,
    outbox (step dom p ev) = outbox p ++ posted
    /\ length posted <= 1
    /\ forall r, In r posted -> reportMatches r (detector (step dom p ev)).
Proof.
  assert (Hnone : forall q, outbox q = outbox p ->
             exists posted, outbox q = outbox p ++ posted
               /\ length posted <= 1
               /\ forall r, In r posted -> reportMatches r (detector q)).
  { intros q ->. exists []. rewrite app_nil_r. simpl.
    split; [reflexivity|]. split; [lia|tauto]. }
  assert (Hrep : forall d,
             exists posted,
               outbox (withPosted p (reportToServer d dom)) = outbox p ++ posted
               /\ length posted <= 1
               /\ forall r, In r posted ->
                  reportMatches r (detector (withPosted p (reportToServer d dom)))).
  { intros d. exists (snd (reportToServer d dom)). simpl.
    split; [reflexivity|]. split; [apply reportToServer_at_most_one|].
    rewrite reportToServer_fst. apply reportToServer_matches. }
  destruct ev;
    try (apply Hnone; simpl; destruct (listening p); reflexivity);
    try (apply Hnone; reflexivity);
    simpl; try (destruct (listening p) eqn:Hl; [|apply Hnone; reflexivity]).
  - unfold handleClick. repeat case_match;
      first [apply Hrep
            | exists []; simpl; split; [reflexivity|split; [lia|tauto]]].
  - unfold handleFormInteraction. repeat case_match;
      first [apply Hrep
            | exists []; simpl; split; [reflexivity|split; [lia|tauto]]].
  - exists (snd (runAnalysis (detector p) dom)). simpl.
    destruct (runAnalysis_posted (detector p) dom) as [Hone Hm].
    split; [reflexivity|]. split; [exact Hone|].
    intros r Hr. specialize (Hm r Hr). revert Hm.
    apply reportMatches_same; reflexivity.
  - unfold onHeadResponse. destruct (isBotUserAgent _); [apply Hrep|].
    exists []. simpl. split; [reflexivity|split; [lia|tauto]].
Qed.

(** X12.  One host event posts at most one report, and a report carries
    the score and the five sample counts the detector has right after that
    event.  Hence, on a run from a fresh detector, every report in the
    outbox has sample counts within the buffer capacities. *)
Theorem reports_match_detector (dom : DOM) (evs : list HostEvent) (ev : HostEvent) :
  let p := run dom evs newPage in
  (exists posted,
      outbox (step dom p ev) = outbox p ++ posted
      /\ length posted <= 1
      /\ forall r, In r posted -> reportMatches r (detector (step dom p ev)))
  /\ Forall reportWithinCapacity (outbox p).
Proof.
  intros p. split; [apply step_posted|].
  subst p.
  enough (H : withinCapacity (detector (run dom evs newPage))
              /\ Forall reportWithinCapacity (outbox (run dom evs newPage)))
    by apply H.
  apply (run_invariant
           (fun q => withinCapacity (detector q)
                     /\ Forall reportWithinCapacity (outbox q))).
  - intros q e [Hcap Hout].
    assert (Hcap' : withinCapacity (detector (step dom q e))).
    { eapply buffersChange_withinCapacity; [exact Hcap|].
      now apply step_change. }
    split; [exact Hcap'|].
    destruct (step_posted dom q e) as (posted & -> & _ & Hm).
    apply Forall_app. split; [exact Hout|].
    apply List.Forall_forall. intros r Hr.
    destruct (Hm r Hr) as (_ & E1 & E2 & E3 & E4 & E5).
    unfold reportWithinCapacity. rewrite E1, E2, E3, E4, E5. exact Hcap'.
  - split; [apply newBotDetector_withinCapacity|constructor].
Qed.

(** ** X13: the adapted view of the application *)

Lemma afterCheck_adaptedView info d dom :
  adaptedView info = true -> adaptedView (afterCheck info d dom) = true.
Proof.
  intros H. unfold afterCheck, checkBotStatus.
  destruct (getIntelligenceLevel d dom); simpl; [|exact H].
  now rewrite H.
Qed.

(** X13.  Once the application has marked the view as adapted it stays
    adapted through every later check, whatever the detector says then and
    whether or not a check raises; and a check that completes while the
    detector reports a likely bot marks it. *)
Theorem adapted_view_sticks (info : BotInfo) (checks : list (BotDetector * DOM)) :
  (adaptedView info = true -> adaptedView (afterChecks info checks) = true)
  /\ (forall d dom level,
      isLikelyBot d = true -> getIntelligenceLevel d dom = Return level ->
      adaptedView (afterChecks (afterCheck info d dom) checks) = true).
Proof.
  assert (Hstick : forall l i, adaptedView i = true ->
                               adaptedView (afterChecks i l) = true).
  { induction l as [|[d dom] l IH]; intros i Hi; [exact Hi|].
    simpl. apply IH. now apply afterCheck_adaptedView. }
  split; [apply Hstick|].
  intros d dom level Hbot Hlevel. apply Hstick.
  unfold afterCheck, checkBotStatus. rewrite Hlevel. simpl.
  rewrite Hbot. apply orb_true_r.
Qed.

Lemma adapted_view_sticks_witness :
  let bot := detector (run quietDom drivenClicks newPage) in
  let human := newBotDetector in
  adaptedView
    (afterChecks (afterCheck initialBotInfo bot quietDom)
       [(human, quietDom); (bot, throwingDom)]) = true
  /\ isBot
       (afterChecks (afterCheck initialBotInfo bot quietDom)
          [(human, quietDom); (bot, throwingDom)]) = false.
Proof.
  intros bot human. split; [|vm_compute; reflexivity].
  apply (proj2 (adapted_view_sticks initialBotInfo
                  [(human, quietDom); (bot, throwingDom)]) bot quietDom L1);
    vm_compute; reflexivity.
Defined.

(** ** X14: routing feeds the usage map *)

(** X14.  A GraphQL request goes to [/bot/graphql] exactly when the
    detector reports a likely bot, and then the request itself is counted
    as privileged-endpoint use: fetching the chosen address raises the
    total read by the tier by one for a likely bot and leaves the usage
    map as it is otherwise. *)
Theorem routing_feeds_usage (d : BotDetector) :
  let d' := hookedFetch d (UrlString (graphqlUri d)) in
  endpointCount d' = (endpointCount d + if isLikelyBot d then 1 else 0)%N
  /\ hitCount "/bot/graphql" d'
     = (hitCount "/bot/graphql" d + if isLikelyBot d then 1 else 0)%N
  /\ (isLikelyBot d = false -> d' = d).
Proof.
  assert (Hbot : hookedFetch d (UrlString "/bot/graphql")
                 = set_botEndpointHits
                     (<["/bot/graphql"%string :=
                          (default 0 (botEndpointHits d !! "/bot/graphql"%string)
                           + 1)%N]> (botEndpointHits d)) d) by reflexivity.
  assert (Hplain : hookedFetch d (UrlString "/graphql") = d) by reflexivity.
  intros d'. subst d'. unfold graphqlUri. destruct (isLikelyBot d).
  - split; [|split; [|discriminate]].
    + rewrite Hbot. unfold endpointCount. simpl. apply endpointCount_insert.
    + rewrite hookedFetch_hitCount. reflexivity.
  - rewrite Hplain. split; [lia|]. split; [lia|reflexivity].
Qed.

Lemma routing_feeds_usage_witness :
  hookedFetch newBotDetector (UrlString (graphqlUri newBotDetector))
  = newBotDetector.
Proof.
  apply (proj2 (proj2 (routing_feeds_usage newBotDetector))).
  vm_compute. reflexivity.
Defined.

(** ** X15: when nothing can raise *)

Lemma countCenterClicks_calm dom clicks acc :
  calm dom -> exists n, countCenterClicks dom clicks acc = Return n.
Proof.
  intros Hcalm. revert acc.
  induction clicks as [|click rest IH]; intros acc; simpl; [eauto|].
  destruct (Hcalm (c_x click) (c_y click)) as [[rect|] ->]; [|apply IH].
  destruct (_ <? _)%float; apply IH.
Qed.

Lemma navigation_returns d dom :
  calm dom \/ length (clickEvents d) < 2 ->
  exists nav, calculateNavigationPatterns d dom = Return nav.
Proof.
  intros H. unfold calculateNavigationPatterns.
  destruct (_ && _); [eexists; reflexivity|].
  destruct (Nat.leb_spec 2 (length (clickEvents d))) as [Hc|Hc];
    [|eexists; reflexivity].
  destruct H as [Hcalm|Hfew]; [|lia].
  unfold centerClickRatio.
  destruct (countCenterClicks_calm dom (clickEvents d) 0%float Hcalm) as [n ->].
  eexists. reflexivity.
Qed.

(** X15.  When the DOM lookups cannot raise, or fewer than 2 clicks are
    buffered (the lookups are then not made), nothing in the detector
    raises: the navigation signal and the tier return, the application's
    check reaches its state update, and a report is always posted when
    asked for. *)
Theorem nothing_raises (d : BotDetector) (dom : DOM) :
  calm dom \/ length (clickEvents d) < 2 ->
  (exists nav, calculateNavigationPatterns d dom = Return nav)
  /\ (exists level, getIntelligenceLevel d dom = Return level)
  /\ (forall prev, exists info, checkBotStatus prev d dom = Return info)
  /\ length (snd (reportToServer d dom)) = 1.
Proof.
  intros H. destruct (navigation_returns d dom H) as [nav Hnav].
  split; [eauto|].
  unfold checkBotStatus, getIntelligenceLevel, reportToServer. rewrite Hnav.
  simpl. repeat split; eauto.
Qed.

Lemma nothing_raises_witness :
  let d := detector (run quietDom drivenClicks newPage) in
  length (clickEvents d) = 2
  /\ (exists level, getIntelligenceLevel d quietDom = Return level)
  /\ (exists level, getIntelligenceLevel newBotDetector throwingDom = Return level).
Proof.
  intros d. split; [vm_compute; reflexivity|]. split.
  - apply (nothing_raises d quietDom). left. intros x y. eexists. reflexivity.
  - apply (nothing_raises newBotDetector throwingDom). right. simpl. lia.
Defined.

(** ** X16: the newest sample is last *)

Lemma last_pushTrim {A} cap (x : A) buf :
  0 < cap -> last (pushTrim cap x buf) = Some x.
Proof.
  intros Hcap. unfold pushTrim.
  destruct (Nat.ltb_spec cap (length (buf ++ [x]))) as [Hlt|_];
    [|apply last_snoc].
  destruct buf as [|y ys]; simpl in *; [lia|apply last_snoc].
Qed.

(** X16.  A raw event that is recorded puts its sample at the end of its
    buffer, also when the buffer was full: a pointer or key event that
    passes the throttle, every click and scroll event, and an input event
    on an INPUT, SELECT or TEXTAREA element. *)
Theorem newest_sample_last (d : BotDetector) (now : float) :
  (forall event,
      JS.geb (now - lastMouseTime d)%float 50 = true ->
      last (mouseMovements (handleMouseMove d event now))
      = Some {| m_x := clientX event; m_y := clientY event; m_time := now |})
  /\ (forall event,
      JS.geb (now - lastKeyTime d)%float 25 = true ->
      option_map k_time (last (keyPressTimings (handleKeyDown d event now)))
      = Some now)
  /\ (forall event dom,
      last (clickEvents (fst (handleClick d event now dom)))
      = Some {| c_x := click_clientX event; c_y := click_clientY event;
                c_target := click_tagName event; c_time := now |})
  /\ (forall scrollY,
      last (scrollEvents (handleScroll d scrollY now))
      = Some {| s_scrollY := scrollY; s_time := now |})
  /\ (forall event dom,
      In (input_tagName event) ["INPUT"; "SELECT"; "TEXTAREA"]%string ->
      option_map f_time
        (last (formInteractions (fst (handleFormInteraction d event now dom))))
      = Some now).
Proof.
  split; [|split; [|split; [|split]]].
  - intros event Hgap. unfold handleMouseMove.
    change CONFIG.MOUSE_THROTTLE_MS with 50%float. rewrite Hgap.
    repeat case_match; simpl; apply last_pushTrim, max_positive.
  - intros event Hgap. unfold handleKeyDown, detectMechanicalTyping.
    change CONFIG.KEYBOARD_THROTTLE_MS with 25%float. rewrite Hgap.
    repeat case_match; simpl; rewrite last_pushTrim by apply max_positive;
      reflexivity.
  - intros event dom. unfold handleClick.
    repeat case_match; rewrite ?reportToServer_fst; simpl;
      apply last_pushTrim, quarter_positive.
  - intros scrollY. unfold handleScroll, detectMechanicalScrolling.
    repeat case_match; simpl; apply last_pushTrim, quarter_positive.
  - intros event dom Htag. unfold handleFormInteraction.
    assert (Hok : String.eqb (input_tagName event) "INPUT"
                  || String.eqb (input_tagName event) "SELECT"
                  || String.eqb (input_tagName event) "TEXTAREA" = true).
    { simpl in Htag. destruct Htag as [<-|[<-|[<-|[]]]]; reflexivity. }
    rewrite Hok.
    repeat case_match; rewrite ?reportToServer_fst; simpl;
      rewrite last_pushTrim by apply quarter_positive; reflexivity.
Qed.

Lemma newest_sample_last_witness :
  let d := detector (run quietDom (burst 201) newPage) in
  length (mouseMovements d) = 200
  /\ option_map m_time
       (last (mouseMovements (handleMouseMove d (moveTo 7 7) 30000)))
     = Some 30000%float
  /\ option_map f_time
       (last (formInteractions
                (fst (handleFormInteraction d (typeInto "origin") 30000 quietDom))))
     = Some 30000%float.
Proof.
  intros d. split; [vm_compute; reflexivity|].
  destruct (newest_sample_last d 30000%float) as (Hm & _ & _ & _ & Hf).
  split.
  - rewrite (Hm (moveTo 7 7)); [reflexivity|vm_compute; reflexivity].
  - apply (Hf (typeInto "origin") quietDom). simpl. auto.
Defined.

(** ** X17: what a cycle can change *)

(** X17.  An analysis cycle changes nothing but the score and posts at
    most one report; and when it does change the detector, the score it
    leaves is not NaN. *)
Theorem analysis_cycle_frame (d : BotDetector) (dom : DOM) :
  length (snd (runAnalysis d dom)) <= 1
  /\ (fst (runAnalysis d dom) = d
      \/ exists c, JS.isNaN c = false
                   /\ fst (runAnalysis d dom) = set_confidenceScore c d).
Proof.
  split; [apply runAnalysis_posted|].
  unfold runAnalysis. destruct (isAnalyzing d) eqn:Hflag; [left; reflexivity|].
  assert (Hback : forall c,
             set_isAnalyzing false
               (set_confidenceScore c (set_isAnalyzing true d))
             = set_confidenceScore c d).
  { intros c. destruct d; simpl in *; subst; reflexivity. }
  unfold analysisTry. destruct (Nat.ltb _ _).
  - left. simpl. destruct d; simpl in *; subst; reflexivity.
  - right.
    destruct (calculateNavigationPatterns (set_isAnalyzing true d) dom)
      as [nav|e]; simpl.
    + match goal with
      | |- context [reportToServer ?x dom] =>
          pose proof (reportToServer_fst x dom) as Hfst;
          destruct (reportToServer x dom) as [d' posted]
      end.
      simpl in *. subst d'.
      destruct (JS.isNaN _) eqn:Hnan; eexists; (split; [|apply Hback]);
        [reflexivity|exact Hnan].
    + exists 0.5%float. split; [reflexivity|apply Hback].
Qed.

(** ** X18: too little data *)

(** X18.  With too little data every extractor returns exactly the neutral
    0.5: fewer than 2 pointer samples, no key sample, fewer than 2 form
    samples, and for the navigation signal fewer than 2 clicks together
    with fewer than 3 scrolls (whatever the DOM does). *)
Theorem extractors_neutral (d : BotDetector) (dom : DOM) :
  (length (mouseMovements d) < 2 -> calculateMouseEntropy d = 0.5%float)
  /\ (keyPressTimings d = [] -> calculateTypingPatterns d = 0.5%float)
  /\ (length (formInteractions d) < 2 ->
      calculateFormFillingPatterns d = 0.5%float)
  /\ (length (clickEvents d) < 2 -> length (scrollEvents d) < 3 ->
      calculateNavigationPatterns d dom = Return 0.5%float).
Proof.
  split; [|split; [|split]].
  - intros H. unfold calculateMouseEntropy.
    destruct (Nat.ltb_spec (length (mouseMovements d)) CONFIG.MIN_MOUSE_MOVEMENTS)
      as [_|Hge]; [reflexivity|]. unfold CONFIG.MIN_MOUSE_MOVEMENTS in Hge. lia.
  - intros H. unfold calculateTypingPatterns. now rewrite H.
  - intros H. unfold calculateFormFillingPatterns.
    destruct (Nat.ltb_spec (length (formInteractions d)) 2); [reflexivity|lia].
  - intros Hc Hs. unfold calculateNavigationPatterns.
    destruct (_ && _); [reflexivity|].
    destruct (Nat.leb_spec 3 (length (scrollEvents d))); [lia|].
    destruct (Nat.leb_spec 2 (length (clickEvents d))); [lia|reflexivity].
Qed.

Lemma extractors_neutral_witness :
  let d := detector (run throwingDom twoScrollsOneClick newPage) in
  length (scrollEvents d) = 2 /\ length (clickEvents d) = 1
  /\ calculateNavigationPatterns d throwingDom = Return 0.5%float
  /\ calculateMouseEntropy d = 0.5%float.
Proof.
  intros d. split; [vm_compute; reflexivity|].
  split; [vm_compute; reflexivity|].
  destruct (extractors_neutral d throwingDom) as (Hm & _ & _ & Hn).
  split; [apply Hn|apply Hm]; vm_compute; lia.
Defined.

(** ** X19: events that post nothing *)

(** X19.  Only clicks, input events, analysis cycles and the HEAD response
    can post a report: pointer, key and scroll events (also when they raise
    the score), the delayed automation check, fetches, start and stop leave
    the outbox as it is. *)
Theorem other_events_post_nothing (dom : DOM) (p : Page) (ev : HostEvent) :
  mayPost ev = false -> outbox (step dom p ev) = outbox p.
Proof.
  destruct ev; try discriminate; intros _; simpl;
    try (destruct (listening p)); reflexivity.
Qed.

Lemma other_events_post_nothing_witness :
  let p := run quietDom (firstn 3 straightMoves)
             (step quietDom newPage (Started 1 false)) in
  let q := step quietDom p (MouseMoved (moveTo 40 0) 400) in
  (confidenceScore (detector p) <? confidenceScore (detector q))%float = true
  /\ outbox q = outbox p.
Proof.
  intros p q. split; [vm_compute; reflexivity|].
  apply (other_events_post_nothing quietDom p). reflexivity.
Defined.

(** ** X20: what leaves the score alone *)

(** X20.  Stopping does not reset the score, nor does a fetch or a raw
    event delivered while the listeners are detached change it; stopping
    and starting again (no automation flag) resumes with the score, the
    throttle clocks and the usage map as they were, and empty buffers. *)
Theorem score_survives_stop (dom : DOM) (p : Page) (ev : HostEvent) (handle : nat) :
  confidenceScore (detector (step dom p Stopped)) = confidenceScore (detector p)
  /\ (rawEvent ev = true \/ (exists input, ev = Fetched input) ->
      confidenceScore (detector (step dom (step dom p Stopped) ev))
      = confidenceScore (detector p))
  /\ (let q := run dom [Stopped; Started handle false] p in
      confidenceScore (detector q) = confidenceScore (detector p)
      /\ lastMouseTime (detector q) = lastMouseTime (detector p)
      /\ lastKeyTime (detector q) = lastKeyTime (detector p)
      /\ botEndpointHits (detector q) = botEndpointHits (detector p)
      /\ silencedBuffers (detector q) /\ listening q = true).
Proof.
  assert (Hstop : confidenceScore (stop (detector p))
                  = confidenceScore (detector p)) by (unfold stop; frame).
  split; [exact Hstop|]. split.
  - intros [Hraw|[input ->]].
    + destruct ev; try discriminate; exact Hstop.
    + simpl. unfold hookedFetch. frame.
  - simpl. unfold start, detectAutomationLibraries, scheduleAnalysis, stop.
    repeat split; frame.
Qed.

Lemma score_survives_stop_witness :
  let p := run quietDom drivenClicks newPage in
  confidenceScore (detector p) = 0.95%float
  /\ confidenceScore
       (detector (step quietDom (step quietDom p Stopped)
                    (MouseMoved (moveTo 1 1) 9000)))
     = confidenceScore (detector p).
Proof.
  intros p. split; [vm_compute; reflexivity|].
  apply (proj1 (proj2 (score_survives_stop quietDom p
                         (MouseMoved (moveTo 1 1) 9000%float) 2))).
  left. reflexivity.
Defined.

(** ** X21: form samples name their field *)

Lemma Forall_pushTrim {A} (P : A -> Prop) cap x buf :
  Forall P buf -> P x -> Forall P (pushTrim cap x buf).
Proof.
  intros Hbuf Hx. unfold pushTrim.
  assert (H : Forall P (buf ++ [x])) by (apply Forall_app; split; auto).
  destruct (Nat.ltb _ _); [now apply Forall_tail_of|exact H].
Qed.

Lemma step_fieldsNamed dom p ev :
  fieldsNamed (formInteractions (detector p)) ->
  fieldsNamed (formInteractions (detector (step dom p ev))).
Proof.
  intros H.
  assert (Hsame : forall d, formInteractions d = formInteractions (detector p) ->
                            fieldsNamed (formInteractions d))
    by (intros d ->; exact H).
  destruct ev; simpl;
    try (destruct (listening p); simpl; [|exact H]).
  - apply Hsame. unfold handleMouseMove. frame.
  - apply Hsame. unfold handleKeyDown, detectMechanicalTyping. frame.
  - apply Hsame. unfold handleClick. frame.
  - apply Hsame. unfold handleScroll, detectMechanicalScrolling. frame.
  - unfold handleFormInteraction.
    destruct (_ || _) eqn:Htag; [|exact H].
    assert (Hpush : fieldsNamed
              (pushTrim CONFIG.QUARTER_SAMPLES
                 {| f_field := orElse (input_name event)
                                 (orElse (input_id event) (input_tagName event));
                    f_time := now |}
                 (formInteractions (detector p)))).
    { apply Forall_pushTrim; [exact H|]. simpl.
      destruct (input_name event); [|discriminate].
      destruct (input_id event); [|discriminate]. simpl.
      destruct (input_tagName event); [discriminate Htag|discriminate]. }
    repeat case_match; rewrite ?reportToServer_fst; exact Hpush.
  - apply Hsame. destruct (runAnalysis_only_score (detector p) dom) as [c ->].
    reflexivity.
  - apply Hsame. unfold checkForAutomation. frame.
  - apply Hsame. unfold onHeadResponse. frame.
  - apply Hsame. unfold hookedFetch. frame.
  - apply Hsame. unfold start, detectAutomationLibraries. frame.
  - constructor.
Qed.

(** X21.  On every page reached from a fresh detector every form sample
    in the buffer has a non-empty field identifier: the name of the
    element, else its id, else its tag name, which is one of INPUT, SELECT
    and TEXTAREA. *)
Theorem form_samples_named (dom : DOM) (evs : list HostEvent) (sample : FormSample) :
  In sample (formInteractions (detector (run dom evs newPage))) ->
  f_field sample <> EmptyString.
Proof.
  assert (H : fieldsNamed (formInteractions (detector (run dom evs newPage)))).
  { apply (run_invariant
             (fun p => fieldsNamed (formInteractions (detector p)))).
    - intros p ev. apply step_fieldsNamed.
    - constructor. }
  intros Hin. unfold fieldsNamed in H.
  rewrite List.Forall_forall in H. now apply H.
Qed.

Lemma form_samples_named_witness :
  f_field {| f_field := "INPUT"; f_time := 1100 |} <> EmptyString.
Proof.
  apply (form_samples_named quietDom anonymousForm).
  vm_compute. right. left. reflexivity.
Defined.
